(** * The contact worker of wrk-wanya.me: a shallow embedding of [src/index.ts]

    The worker is one request handler: route, parse, sanitize, validate,
    verify the Turnstile token, send the mail through Resend, answer with a
    JSON envelope and CORS headers.  The embedding keeps the run-time view of
    the TypeScript code: strings are sequences of UTF-16 code units, parsed
    JSON is an untyped value, property access on [null] raises, the two
    outbound [fetch] calls are answered by an oracle and recorded in a
    trace. *)

From Stdlib Require Import List Arith NArith Bool String Ascii.
From Stdlib Require Import Floats.SpecFloat.
Import ListNotations.

Set Implicit Arguments.

(** * Part I: the model *)

(** ** JavaScript strings *)

Module JsString.

(** A string is the list of its UTF-16 code units; [length] is the
    [.length] of the source. *)
Definition codeunit := N.
Definition jsstring := list codeunit.

(** Literals of the source are written as UTF-8 text and decoded to code
    units (a code point beyond the BMP becomes a surrogate pair). *)
Fixpoint utf16_of_utf8 (bs : list N) : jsstring :=
  match bs with
  | [] => []
  | b0 :: r0 =>
      if (b0 <? 128)%N then b0 :: utf16_of_utf8 r0
      else if (b0 <? 224)%N then
        match r0 with
        | b1 :: r1 => ((b0 mod 32) * 64 + b1 mod 64)%N :: utf16_of_utf8 r1
        | [] => []
        end
      else if (b0 <? 240)%N then
        match r0 with
        | b1 :: b2 :: r2 =>
            ((b0 mod 16) * 4096 + (b1 mod 64) * 64 + b2 mod 64)%N
              :: utf16_of_utf8 r2
        | _ => []
        end
      else
        match r0 with
        | b1 :: b2 :: b3 :: r3 =>
            let cp := ((b0 mod 8) * 262144 + (b1 mod 64) * 4096
                       + (b2 mod 64) * 64 + b3 mod 64)%N in
            let v := (cp - 65536)%N in
            (55296 + v / 1024)%N :: (56320 + v mod 1024)%N
              :: utf16_of_utf8 r3
        | _ => []
        end
  end.

Definition js (s : string) : jsstring :=
  utf16_of_utf8 (List.map N_of_ascii (list_ascii_of_string s)).

(** The double quote, the backslash and the line feed are spelled out. *)
Definition dq : jsstring := [34%N].
Definition backslash : jsstring := [92%N].
Definition nl : jsstring := [10%N].

Definition eqb (a b : jsstring) : bool :=
  if list_eq_dec N.eq_dec a b then true else false.

(** WhiteSpace and LineTerminator of ECMAScript: what [trim] strips and
    what [\s] matches. *)
Definition is_whitespace (c : codeunit) : bool :=
  ((9 <=? c) && (c <=? 13) || (c =? 32) || (c =? 160) || (c =? 5760)
   || (8192 <=? c) && (c <=? 8202) || (c =? 8232) || (c =? 8233)
   || (c =? 8239) || (c =? 8287) || (c =? 12288) || (c =? 65279))%N.

Fixpoint trimStart (s : jsstring) : jsstring :=
  match s with
  | c :: r => if is_whitespace c then trimStart r else s
  | [] => []
  end.

Definition trimEnd (s : jsstring) : jsstring := rev (trimStart (rev s)).

Definition trim (s : jsstring) : jsstring := trimEnd (trimStart s).

(** [s.split(sep)] for a one-unit separator: never the empty array. *)
Fixpoint split (sep : codeunit) (s : jsstring) : list jsstring :=
  match s with
  | [] => [[]]
  | c :: r =>
      if (c =? sep)%N then [] :: split sep r
      else match split sep r with
           | h :: t => (c :: h) :: t
           | [] => [[c]]
           end
  end.

(** [arr.join(sep)] on an array of strings. *)
Fixpoint join (sep : jsstring) (l : list jsstring) : jsstring :=
  match l with
  | [] => []
  | x :: r => match r with [] => x | _ => x ++ sep ++ join sep r end
  end.

(** [arr.includes(x)] on an array of strings. *)
Definition includes (l : list jsstring) (x : jsstring) : bool :=
  existsb (eqb x) l.

(** A string is truthy when it is not empty. *)
Definition nonempty (s : jsstring) : bool :=
  match s with [] => false | _ => true end.

(** [a || b] on strings. *)
Definition or_else (a b : jsstring) : jsstring :=
  if nonempty a then a else b.

(** [s.replace(/[class]/g, fn)]: every code unit of the class is replaced
    by what [fn] returns for it, the others are copied. *)
Definition replace_class_g (cls : codeunit -> bool)
  (fn : jsstring -> jsstring) (s : jsstring) : jsstring :=
  flat_map (fun c => if cls c then fn [c] else [c]) s.

(** The decimal digits of a natural number, as [`${n}`] prints an integer. *)
Fixpoint uint_units (d : Decimal.uint) : jsstring :=
  match d with
  | Decimal.Nil => []
  | Decimal.D0 r => 48%N :: uint_units r
  | Decimal.D1 r => 49%N :: uint_units r
  | Decimal.D2 r => 50%N :: uint_units r
  | Decimal.D3 r => 51%N :: uint_units r
  | Decimal.D4 r => 52%N :: uint_units r
  | Decimal.D5 r => 53%N :: uint_units r
  | Decimal.D6 r => 54%N :: uint_units r
  | Decimal.D7 r => 55%N :: uint_units r
  | Decimal.D8 r => 56%N :: uint_units r
  | Decimal.D9 r => 57%N :: uint_units r
  end.

Definition decimal (n : N) : jsstring := uint_units (N.to_uint n).

(** Conversion to a USVString (what [URLSearchParams.append] stores): a
    surrogate that is not part of a pair becomes U+FFFD. *)
Definition is_high_surrogate (c : codeunit) : bool :=
  ((55296 <=? c) && (c <=? 56319))%N.
Definition is_low_surrogate (c : codeunit) : bool :=
  ((56320 <=? c) && (c <=? 57343))%N.

Fixpoint toUSVString (s : jsstring) : jsstring :=
  match s with
  | [] => []
  | c :: r =>
      if is_high_surrogate c then
        match r with
        | d :: r' =>
            if is_low_surrogate d then c :: d :: toUSVString r'
            else 65533%N :: toUSVString r
        | [] => [65533%N]
        end
      else if is_low_surrogate c then 65533%N :: toUSVString r
      else c :: toUSVString r
  end.

(** [t] occurs in [s] as a contiguous run of code units. *)
Definition occurs_in (t s : jsstring) : Prop :=
  exists pre post, s = pre ++ t ++ post.

End JsString.
Import JsString.

(** ** Regular expressions

    The one pattern of the source is anchored at both ends and has no
    flags, so [test] is a match of the whole string; it is decided with
    derivatives. *)

Module Regex.

Inductive regex : Type :=
| Void
| Eps
| Class (cls : codeunit -> bool)
| Cat (r1 r2 : regex)
| Alt (r1 r2 : regex)
| Star (r : regex).

Definition Char (c : codeunit) : regex := Class (N.eqb c).
Definition Plus (r : regex) : regex := Cat r (Star r).

Fixpoint nullable (r : regex) : bool :=
  match r with
  | Void => false
  | Eps => true
  | Class _ => false
  | Cat r1 r2 => nullable r1 && nullable r2
  | Alt r1 r2 => nullable r1 || nullable r2
  | Star _ => true
  end.

Fixpoint deriv (c : codeunit) (r : regex) : regex :=
  match r with
  | Void => Void
  | Eps => Void
  | Class cls => if cls c then Eps else Void
  | Cat r1 r2 =>
      if nullable r1 then Alt (Cat (deriv c r1) r2) (deriv c r2)
      else Cat (deriv c r1) r2
  | Alt r1 r2 => Alt (deriv c r1) (deriv c r2)
  | Star r1 => Cat (deriv c r1) (Star r1)
  end.

Fixpoint matches (r : regex) (s : jsstring) : bool :=
  match s with
  | [] => nullable r
  | c :: s' => matches (deriv c r) s'
  end.

(** [/^r$/.test(s)] *)
Definition test (r : regex) (s : jsstring) : bool := matches r s.

(** The language of a regular expression, to state what [test] decides. *)
Inductive lang : regex -> jsstring -> Prop :=
| L_eps : lang Eps []
| L_class cls c : cls c = true -> lang (Class cls) [c]
| L_cat r1 r2 s1 s2 : lang r1 s1 -> lang r2 s2 -> lang (Cat r1 r2) (s1 ++ s2)
| L_alt_l r1 r2 s : lang r1 s -> lang (Alt r1 r2) s
| L_alt_r r1 r2 s : lang r2 s -> lang (Alt r1 r2) s
| L_star_nil r : lang (Star r) []
| L_star_app r s1 s2 : lang r s1 -> lang (Star r) s2 -> lang (Star r) (s1 ++ s2).

End Regex.

(** ** JavaScript values and exceptions *)

Set Warnings "-register-all".

(** What [JSON.parse] can return, and [undefined] for an absent property.
    A number is an IEEE double; the properties of an object are listed in
    its own-key order, each key once. *)
Inductive JsValue : Type :=
| JUndefined
| JNull
| JBool (b : bool)
| JNumber (x : spec_float)
| JString (s : jsstring)
| JArray (items : list JsValue)
| JObject (props : list (jsstring * JsValue)).

Inductive JsError : Type :=
| TypeError
| SyntaxError
| Error (message : jsstring).

(** A computation that returns or throws. *)
Inductive Result (A : Type) : Type :=
| Ok (a : A)
| Throw (e : JsError).
Arguments Ok {A} a.
Arguments Throw {A} e.

Definition bindR {A B} (c : Result A) (k : A -> Result B) : Result B :=
  match c with
  | Ok a => k a
  | Throw e => Throw e
  end.

Notation "x <~ c ;; k" := (bindR c (fun x => k))
  (at level 61, c at next level, right associativity).

Fixpoint sequenceR {A} (l : list (Result A)) : Result (list A) :=
  match l with
  | [] => Ok []
  | c :: r => a <~ c ;; t <~ sequenceR r ;; Ok (a :: t)
  end.

(** ToBoolean *)
Definition truthy (v : JsValue) : bool :=
  match v with
  | JUndefined | JNull => false
  | JBool b => b
  | JNumber (S754_zero _) | JNumber S754_nan => false
  | JNumber _ => true
  | JString s => nonempty s
  | JArray _ | JObject _ => true
  end.

Definition nullish (v : JsValue) : bool :=
  match v with
  | JUndefined | JNull => true
  | _ => false
  end.

(** [v ?? d] *)
Definition coalesce (v d : JsValue) : JsValue :=
  if nullish v then d else v.
Notation "v ?? d" := (coalesce v d) (at level 40, left associativity).

(** [v || d] *)
Definition or_value (v d : JsValue) : JsValue :=
  if truthy v then v else d.

Definition own_property (props : list (jsstring * JsValue)) (k : jsstring)
  : option JsValue :=
  option_map snd (find (fun kv => eqb k (fst kv)) props).

(** [v.k] for the property names the worker reads ([name], [email], ...,
    [success]): none of them is defined on a built-in prototype, so only an
    own property of an object can answer; reading from [null] or
    [undefined] throws. *)
Definition get (v : JsValue) (k : jsstring) : Result JsValue :=
  match v with
  | JUndefined | JNull => Throw TypeError
  | JObject props =>
      match own_property props k with
      | Some x => Ok x
      | None => Ok JUndefined
      end
  | _ => Ok JUndefined
  end.

(** [v.trim()]: only a string has the method. *)
Definition call_trim (v : JsValue) : Result jsstring :=
  match v with
  | JString s => Ok (trim s)
  | _ => Throw TypeError
  end.

Definition is_finite (x : spec_float) : bool :=
  match x with
  | S754_zero _ | S754_finite _ _ _ => true
  | _ => false
  end.

Definition hex_digit (n : N) : codeunit :=
  if (n <? 10)%N then (48 + n)%N else (87 + n)%N.

Definition hex4 (c : codeunit) : jsstring :=
  [hex_digit (c / 4096 mod 16); hex_digit (c / 256 mod 16);
   hex_digit (c / 16 mod 16); hex_digit (c mod 16)]%N.

Definition unicode_escape (c : codeunit) : jsstring :=
  backslash ++ js "u" ++ hex4 c.

(** The body of QuoteJSONString: what stands between the quotes. *)
Fixpoint quote_units (s : jsstring) : jsstring :=
  match s with
  | [] => []
  | c :: r =>
      if (c =? 8)%N then backslash ++ js "b" ++ quote_units r
      else if (c =? 9)%N then backslash ++ js "t" ++ quote_units r
      else if (c =? 10)%N then backslash ++ js "n" ++ quote_units r
      else if (c =? 12)%N then backslash ++ js "f" ++ quote_units r
      else if (c =? 13)%N then backslash ++ js "r" ++ quote_units r
      else if (c =? 34)%N then backslash ++ dq ++ quote_units r
      else if (c =? 92)%N then backslash ++ backslash ++ quote_units r
      else if (c <? 32)%N then unicode_escape c ++ quote_units r
      else if is_high_surrogate c then
        match r with
        | d :: r' =>
            if is_low_surrogate d then c :: d :: quote_units r'
            else unicode_escape c ++ quote_units r
        | [] => unicode_escape c
        end
      else if is_low_surrogate c then unicode_escape c ++ quote_units r
      else c :: quote_units r
  end.

Definition QuoteJSONString (s : jsstring) : jsstring :=
  dq ++ quote_units s ++ dq.

Section Numbers.

(** Number::toString, the shortest decimal that reads back as the same
    double, is left abstract. *)
Variable Number_toString : spec_float -> jsstring.

(** ToString.  An array joins its elements with commas, [null] printing as
    nothing; a plain object prints as [[object Object]] unless a key
    [toString] shadows the inherited method with a value that cannot be
    called. *)
Fixpoint ToString (v : JsValue) : Result jsstring :=
  match v with
  | JUndefined => Ok (js "undefined")
  | JNull => Ok (js "null")
  | JBool b => Ok (if b then js "true" else js "false")
  | JNumber x => Ok (Number_toString x)
  | JString s => Ok s
  | JArray items =>
      parts <~ sequenceR
                 (map (fun i => if nullish i then Ok [] else ToString i) items) ;;
      Ok (join (js ",") parts)
  | JObject props =>
      match own_property props (js "toString") with
      | Some _ => Throw TypeError
      | None => Ok (js "[object Object]")
      end
  end.

(** [JSON.stringify(v)]; [None] is [undefined]. *)
Fixpoint JSON_stringify (v : JsValue) : option jsstring :=
  match v with
  | JUndefined => None
  | JNull => Some (js "null")
  | JBool b => Some (if b then js "true" else js "false")
  | JNumber x => Some (if is_finite x then Number_toString x else js "null")
  | JString s => Some (QuoteJSONString s)
  | JArray items =>
      Some (js "[" ++
            join (js ",")
              (map (fun i => match JSON_stringify i with
                             | Some t => t
                             | None => js "null"
                             end) items) ++
            js "]")
  | JObject props =>
      Some (js "{" ++
            join (js ",")
              (flat_map (fun kv => match kv with
                                   | (k, x) =>
                                       match JSON_stringify x with
                                       | Some t => [QuoteJSONString k ++ js ":" ++ t]
                                       | None => []
                                       end
                                   end) props) ++
            js "}")
  end.

End Numbers.

(** ** The worker's data *)

(** [Env]: the bindings the runtime hands to the handler. *)
Record Env : Type := {
  RESEND_API_KEY : jsstring;
  FROM_EMAIL : jsstring;
  TO_EMAIL : jsstring;
  TURNSTILE_SECRET : jsstring;
  ALLOWED_ORIGINS : option jsstring;
  SITE_NAME : option jsstring;
  RESEND_DISABLED : option jsstring
}.

(** [ContactPayload] as [sanitizePayload] builds it.  The five fields that
    go through [trim] are strings; [subject], [budget] and [turnstileToken]
    hold whatever value the client sent (or the default), since nothing
    converts them. *)
Record ContactPayload : Type := {
  name : jsstring;
  email : jsstring;
  phone : jsstring;
  subject : JsValue;
  budget : JsValue;
  deadline : jsstring;
  message : jsstring;
  turnstileToken : JsValue
}.

(** [/^[^\s@]+@[^\s@]+\.[^\s@]+$/] *)
Definition not_space_or_at (c : codeunit) : bool :=
  negb (is_whitespace c || (c =? 64)%N).

Definition emailRegex : Regex.regex :=
  Regex.Cat (Regex.Plus (Regex.Class not_space_or_at))
    (Regex.Cat (Regex.Char 64%N)
       (Regex.Cat (Regex.Plus (Regex.Class not_space_or_at))
          (Regex.Cat (Regex.Char 46%N)
             (Regex.Plus (Regex.Class not_space_or_at))))).

(** ** Sanitizer and validator *)

Definition sanitizePayload (payload : JsValue) : Result ContactPayload :=
  name' <~ (v <~ get payload (js "name") ;; call_trim (v ?? JString (js ""))) ;;
  email' <~ (v <~ get payload (js "email") ;; call_trim (v ?? JString (js ""))) ;;
  phone' <~ (v <~ get payload (js "phone") ;; call_trim (v ?? JString (js ""))) ;;
  subject' <~ (v <~ get payload (js "subject") ;;
               Ok (v ?? JString (js "お問い合わせ"))) ;;
  budget' <~ (v <~ get payload (js "budget") ;; Ok (v ?? JString (js ""))) ;;
  deadline' <~ (v <~ get payload (js "deadline") ;;
                call_trim (v ?? JString (js ""))) ;;
  message' <~ (v <~ get payload (js "message") ;;
               call_trim (v ?? JString (js ""))) ;;
  turnstileToken' <~ (v <~ get payload (js "turnstileToken") ;;
                      Ok (v ?? JString (js ""))) ;;
  Ok {| name := name'; email := email'; phone := phone';
        subject := subject'; budget := budget'; deadline := deadline';
        message := message'; turnstileToken := turnstileToken' |}.

Definition msg_name : jsstring := js "お名前は2文字以上で入力してください。".
Definition msg_email : jsstring := js "メールアドレスの形式が正しくありません。".
Definition msg_subject : jsstring := js "件名を選択してください。".
Definition msg_message : jsstring := js "メッセージは10文字以上で入力してください。".
Definition msg_token : jsstring := js "検証トークンが取得できませんでした。".

Definition validatePayload (payload : ContactPayload) : option jsstring :=
  if negb (nonempty (name payload)) || (List.length (name payload) <? 2) then
    Some msg_name
  else if negb (nonempty (email payload))
          || negb (Regex.test emailRegex (email payload)) then
    Some msg_email
  else if negb (truthy (subject payload)) then
    Some msg_subject
  else if negb (nonempty (message payload))
          || (List.length (message payload) <? 10) then
    Some msg_message
  else if negb (truthy (turnstileToken payload)) then
    Some msg_token
  else None.

(** ** CORS and responses *)

Definition HeaderRecord := list (jsstring * jsstring).

(** [h[k] = v] on an object used as a record of headers: an existing key
    keeps its place, a new key goes last. *)
Fixpoint set_header (k v : jsstring) (h : HeaderRecord) : HeaderRecord :=
  match h with
  | [] => [(k, v)]
  | (k', v') :: r =>
      if eqb k k' then (k', v) :: r else (k', v') :: set_header k v r
  end.

(** [{ ...h, ...more }] *)
Definition spread (h more : HeaderRecord) : HeaderRecord :=
  fold_left (fun acc kv => set_header (fst kv) (snd kv) acc) more h.

Definition header_value (h : HeaderRecord) (k : jsstring) : option jsstring :=
  option_map snd (find (fun kv => eqb k (fst kv)) h).

Record Response : Type := {
  status : N;
  headers : HeaderRecord;
  body : option jsstring
}.

(** [!s] on a value of type [string | null] or [string | undefined]. *)
Definition absent (s : option jsstring) : bool :=
  match s with
  | Some t => negb (nonempty t)
  | None => true
  end.

Definition resolveAllowedOrigin (origin configured : option jsstring)
  : option jsstring :=
  if absent origin || absent configured then None
  else
    match origin, configured with
    | Some o, Some c =>
        let entries := filter nonempty (map trim (split 44%N c)) in
        if includes entries (js "*") then Some o
        else if includes entries o then Some o else None
    | _, _ => None
    end.

Definition buildCorsHeaders (origin : option jsstring) : HeaderRecord :=
  let headers :=
    [(js "Access-Control-Allow-Methods", js "POST, OPTIONS");
     (js "Access-Control-Allow-Headers", js "Content-Type")] in
  if absent origin then headers
  else
    match origin with
    | Some o =>
        set_header (js "Vary") (js "Origin")
          (set_header (js "Access-Control-Allow-Origin") o headers)
    | None => headers
    end.

Definition buildCorsResponse (status : N) (origin : option jsstring)
  : Response :=
  {| status := status; headers := buildCorsHeaders origin; body := None |}.

(** ** Outbound calls

    The runtime's [fetch] is an oracle: for a request it either rejects or
    answers with a status and a body.  Every call and every console line is
    recorded, in order. *)

Inductive FetchBody : Type :=
| FormBody (params : list (jsstring * jsstring))
| StringBody (text : option jsstring).

Record FetchRequest : Type := {
  fetch_url : jsstring;
  fetch_method : jsstring;
  fetch_headers : HeaderRecord;
  fetch_body : FetchBody
}.

(** [resp_json] is what [response.json()] resolves to, [None] when the body
    is not JSON; [resp_text] is what [response.text()] resolves to. *)
Record FetchResponse : Type := {
  resp_status : N;
  resp_text : jsstring;
  resp_json : option JsValue
}.

Definition resp_ok (r : FetchResponse) : bool :=
  ((200 <=? resp_status r) && (resp_status r <=? 299))%N.

Inductive FetchOutcome : Type :=
| Rejected (e : JsError)
| Responded (r : FetchResponse).

Definition Network := FetchRequest -> FetchOutcome.

Inductive LogArg : Type :=
| LogText (s : jsstring)
| LogNumber (n : N)
| LogError (e : JsError).

Inductive Event : Type :=
| Fetched (request : FetchRequest)
| Console (level : jsstring) (args : list LogArg).

(** An asynchronous computation: given the network it returns or throws,
    and leaves a trace. *)
Definition Async (A : Type) : Type := Network -> Result A * list Event.

Definition ret {A} (a : A) : Async A := fun _ => (Ok a, []).

Definition throw {A} (e : JsError) : Async A := fun _ => (Throw e, []).

Definition lift {A} (r : Result A) : Async A := fun _ => (r, []).

Definition bind {A B} (c : Async A) (k : A -> Async B) : Async B :=
  fun net =>
    match c net with
    | (Ok a, t) => let (r, t') := k a net in (r, t ++ t')
    | (Throw e, t) => (Throw e, t)
    end.

Notation "x <- c ;; k" := (bind c (fun x => k))
  (at level 61, c at next level, right associativity).
Notation "c ;;; k" := (bind c (fun _ => k))
  (at level 61, right associativity).

(** [try { c } catch (e) { h e }] *)
Definition try_catch {A} (c : Async A) (h : JsError -> Async A) : Async A :=
  fun net =>
    match c net with
    | (Ok a, t) => (Ok a, t)
    | (Throw e, t) => let (r, t') := h e net in (r, t ++ t')
    end.

Definition fetch (request : FetchRequest) : Async FetchResponse :=
  fun net =>
    (match net request with
     | Rejected e => Throw e
     | Responded r => Ok r
     end, [Fetched request]).

Definition console (level : jsstring) (args : list LogArg) : Async unit :=
  fun _ => (Ok tt, [Console level args]).

Definition response_json (r : FetchResponse) : Async JsValue :=
  lift (match resp_json r with
        | Some v => Ok v
        | None => Throw SyntaxError
        end).

Definition turnstile_url : jsstring :=
  js "https://challenges.cloudflare.com/turnstile/v0/siteverify".
Definition resend_url : jsstring := js "https://api.resend.com/emails".

(** The requests of a trace, in order. *)
Definition fetched (t : list Event) : list FetchRequest :=
  flat_map (fun ev => match ev with
                      | Fetched rq => [rq]
                      | Console _ _ => []
                      end) t.

(** No request of the trace went to [url]. *)
Definition never_called (url : jsstring) (t : list Event) : Prop :=
  forall rq, In rq (fetched t) -> fetch_url rq <> url.

(** ** Mail bodies, verification, dispatch *)

Definition escape_table : list (jsstring * jsstring) :=
  [(js "&", js "&amp;"); (js "<", js "&lt;"); (js ">", js "&gt;")].

(** [(char) => ({ '&': '&amp;', '<': '&lt;', '>': '&gt;' }[char] ?? char)] *)
Definition escape_char (char : jsstring) : jsstring :=
  match find (fun kv => eqb char (fst kv)) escape_table with
  | Some kv => snd kv
  | None => char
  end.

(** [/[&<>]/] *)
Definition amp_lt_gt (c : codeunit) : bool :=
  ((c =? 38) || (c =? 60) || (c =? 62))%N.

Definition escape_string (value : jsstring) : jsstring :=
  replace_class_g amp_lt_gt escape_char value.

(** [escape(value)]: [replace] is a method of strings only. *)
Definition escape (value : JsValue) : Result jsstring :=
  match value with
  | JString s => Ok (escape_string s)
  | _ => Throw TypeError
  end.

Definition row (label : jsstring) (value : JsValue) : Result jsstring :=
  e <~ escape value ;;
  Ok (js "<tr><th align=" ++ dq ++ js "left" ++ dq ++ js " style=" ++ dq ++
      js "padding:4px 8px;" ++ dq ++ js ">" ++ label ++
      js "</th><td style=" ++ dq ++ js "padding:4px 8px;" ++ dq ++ js ">" ++
      e ++ js "</td></tr>").

Definition site_or (env : Env) (default : jsstring) : jsstring :=
  match SITE_NAME env with
  | Some s => s
  | None => default
  end.

Definition buildHtmlBody (payload : ContactPayload) (env : Env)
  : Result jsstring :=
  site <~ escape (JString (site_or env (js "WANYA Contact"))) ;;
  r_name <~ row (js "お名前") (JString (name payload)) ;;
  r_email <~ row (js "メール") (JString (email payload)) ;;
  r_phone <~ row (js "電話") (JString (or_else (phone payload) (js "-"))) ;;
  r_subject <~ row (js "件名") (subject payload) ;;
  r_budget <~ row (js "ご予算") (or_value (budget payload) (JString (js "-"))) ;;
  r_deadline <~ row (js "希望納期")
                  (JString (or_else (deadline payload) (js "-"))) ;;
  msg <~ escape (JString (message payload)) ;;
  Ok (List.concat
    [js "<!doctype html>"; nl;
     js "<html lang="; dq; js "ja"; dq; js ">"; nl;
     js "  <body style="; dq; js "font-family:Segoe UI,Helvetica,Arial,sans-serif;background:#f6f6f7;padding:16px;"; dq; js ">"; nl;
     js "    <table cellpadding="; dq; js "0"; dq; js " cellspacing="; dq; js "0"; dq; js " style="; dq; js "width:100%;max-width:600px;margin:auto;background:#ffffff;border-radius:8px;border:1px solid #e0e0e0;"; dq; js ">"; nl;
     js "      <tr>"; nl;
     js "        <td style="; dq; js "padding:16px 24px;border-bottom:1px solid #f0f0f0;"; dq; js ">"; nl;
     js "          <strong>"; site; js "</strong>"; nl;
     js "          <div style="; dq; js "color:#666;font-size:14px;margin-top:4px;"; dq; js ">新しいお問い合わせが届きました。</div>"; nl;
     js "        </td>"; nl;
     js "      </tr>"; nl;
     js "      <tr>"; nl;
     js "        <td>"; nl;
     js "          <table style="; dq; js "width:100%;font-size:14px;"; dq; js ">"; nl;
     js "            "; r_name; nl;
     js "            "; r_email; nl;
     js "            "; r_phone; js " "; nl;
     js "            "; r_subject; nl;
     js "            "; r_budget; js " "; nl;
     js "            "; r_deadline; js " "; nl;
     js "          </table>"; nl;
     js "          <div style="; dq; js "padding:16px 24px;border-top:1px solid #f0f0f0;"; dq; js ">"; nl;
     js "            <div style="; dq; js "font-weight:600;margin-bottom:8px;"; dq; js ">メッセージ</div>"; nl;
     js "            <div style="; dq; js "white-space:pre-wrap;line-height:1.6;color:#333;"; dq; js ">"; msg; js "</div>"; nl;
     js "          </div>"; nl;
     js "        </td>"; nl;
     js "      </tr>"; nl;
     js "    </table>"; nl;
     js "  </body>"; nl;
     js "</html>"]).

Section Dispatch.

Variable Number_toString : spec_float -> jsstring.

Definition buildTextBody (payload : ContactPayload) : Result jsstring :=
  subject' <~ ToString Number_toString (subject payload) ;;
  budget' <~ ToString Number_toString
               (or_value (budget payload) (JString (js "-"))) ;;
  Ok (join nl
        [js "Name: " ++ name payload;
         js "Email: " ++ email payload;
         js "Phone: " ++ or_else (phone payload) (js "-");
         js "Subject: " ++ subject';
         js "Budget: " ++ budget';
         js "Deadline: " ++ or_else (deadline payload) (js "-");
         js "";
         js "Message:";
         message payload]).

Definition buildJsonResponse (status : N) (body : JsValue)
  (origin : option jsstring) (extraHeaders : HeaderRecord) : Response :=
  {| status := status;
     headers :=
       spread (spread [(js "Content-Type", js "application/json")]
                 (buildCorsHeaders origin)) extraHeaders;
     body := JSON_stringify Number_toString body |}.

Definition verifyTurnstile (token : JsValue) (secret : jsstring)
  (ip : option jsstring) : Async bool :=
  if negb (nonempty secret) then
    throw (Error (js "TURNSTILE_SECRET is not configured"))
  else
    response' <- lift (ToString Number_toString token) ;;
    let body :=
      [(js "secret", toUSVString secret);
       (js "response", toUSVString response')] ++
      (if absent ip then []
       else match ip with
            | Some i => [(js "remoteip", toUSVString i)]
            | None => []
            end) in
    response <- fetch {| fetch_url := turnstile_url;
                         fetch_method := js "POST";
                         fetch_headers :=
                           [(js "Content-Type",
                             js "application/x-www-form-urlencoded")];
                         fetch_body := FormBody body |} ;;
    if negb (resp_ok response) then
      console (js "error")
        [LogText (js "Turnstile verification failed with status");
         LogNumber (resp_status response)] ;;;
      ret false
    else
      result <- response_json response ;;
      success <- lift (get result (js "success")) ;;
      ret (truthy success).

Definition sendResendEmail (payload : ContactPayload) (env : Env)
  : Async unit :=
  if match RESEND_DISABLED env with
     | Some flag => eqb flag (js "true")
     | None => false
     end
  then
    console (js "info")
      [LogText (js "Resend delivery skipped (RESEND_DISABLED=true)")] ;;;
    ret tt
  else
    let toList := filter nonempty (map trim (split 44%N (TO_EMAIL env))) in
    if (List.length toList =? 0)%nat then
      throw (Error (js "TO_EMAIL is not configured"))
    else
      subject_text <- lift (ToString Number_toString (subject payload)) ;;
      let subject' :=
        js "[" ++ site_or env (js "WANYA") ++ js "] " ++ subject_text ++
        js " from " ++ name payload in
      textBody <- lift (buildTextBody payload) ;;
      htmlBody <- lift (buildHtmlBody payload env) ;;
      response <- fetch {| fetch_url := resend_url;
                           fetch_method := js "POST";
                           fetch_headers :=
                             [(js "Authorization",
                               js "Bearer " ++ RESEND_API_KEY env);
                              (js "Content-Type", js "application/json")];
                           fetch_body :=
                             StringBody
                               (JSON_stringify Number_toString
                                  (JObject
                                     [(js "from", JString (FROM_EMAIL env));
                                      (js "to", JArray (map JString toList));
                                      (js "reply_to", JString (email payload));
                                      (js "subject", JString subject');
                                      (js "text", JString textBody);
                                      (js "html", JString htmlBody)])) |} ;;
      if negb (resp_ok response) then
        let errorBody := resp_text response in
        throw (Error (js "Resend API error: " ++
                      decimal (resp_status response) ++ js " " ++ errorBody))
      else ret tt.

End Dispatch.

(** ** The handler *)

Record Request : Type := {
  method : jsstring;
  pathname : jsstring;
  headers_get : jsstring -> option jsstring;
  json : option JsValue
}.

Definition request_json (request : Request) : Async JsValue :=
  lift (match json request with
        | Some v => Ok v
        | None => Throw SyntaxError
        end).

Definition msg_delivery : jsstring :=
  js "メール送信に失敗しました。時間をおいて再度お試しください。".

Definition failure (error : jsstring) : JsValue :=
  JObject [(js "success", JBool false); (js "error", JString error)].

Definition success : JsValue := JObject [(js "success", JBool true)].

Module worker.
Section Handler.

Variable Number_toString : spec_float -> jsstring.

Definition fetch (request : Request) (env : Env) : Async Response :=
  let originHeader := headers_get request (js "Origin") in
  let allowedOrigin := resolveAllowedOrigin originHeader (ALLOWED_ORIGINS env) in
  let respond status body extra :=
    buildJsonResponse Number_toString status body allowedOrigin extra in
  if eqb (method request) (js "OPTIONS") then
    ret (buildCorsResponse 204 allowedOrigin)
  else if negb (eqb (pathname request) (js "/api/contact")) then
    ret (respond 404%N (failure (js "Not found")) [])
  else if negb (eqb (method request) (js "POST")) then
    ret (respond 405%N (failure (js "Method not allowed"))
           [(js "Allow", js "POST, OPTIONS")])
  else
    parsed <- try_catch
                (raw <- request_json request ;;
                 payload <- lift (sanitizePayload raw) ;;
                 ret (inl payload))
                (fun err =>
                   ret (inr (respond 400%N
                               (failure (js "Invalid JSON payload")) []))) ;;
    match parsed with
    | inr response => ret response
    | inl payload =>
        let validationError := validatePayload payload in
        if negb (absent validationError) then
          ret (respond 422%N
                 (JObject [(js "success", JBool false);
                           (js "error",
                            match validationError with
                            | Some m => JString m
                            | None => JNull
                            end)]) [])
        else
          let ip := headers_get request (js "CF-Connecting-IP") in
          turnstilePassed <- verifyTurnstile Number_toString
                               (turnstileToken payload)
                               (TURNSTILE_SECRET env) ip ;;
          if negb turnstilePassed then
            ret (respond 403%N (failure (js "Bot verification failed")) [])
          else
            try_catch
              (sendResendEmail Number_toString payload env ;;;
               ret (respond 200%N success []))
              (fun error =>
                 console (js "error")
                   [LogText (js "Resend delivery failure"); LogError error] ;;;
                 ret (respond 502%N (failure msg_delivery) []))
    end.

End Handler.
End worker.

(** ** The validator's rules, as the specification lists them

    An ordered sequence of predicate and message pairs; the first rule that
    does not hold gives the answer.  [subject] and [turnstileToken] are
    present when they are truthy, which for a string means not empty. *)

Definition Rule : Type := (ContactPayload -> bool) * jsstring.

Definition rule_name : Rule :=
  (fun p => nonempty (name p) && (2 <=? List.length (name p)), msg_name).
Definition rule_email : Rule :=
  (fun p => nonempty (email p) && Regex.test emailRegex (email p), msg_email).
Definition rule_subject : Rule :=
  (fun p => truthy (subject p), msg_subject).
Definition rule_message : Rule :=
  (fun p => nonempty (message p) && (10 <=? List.length (message p)),
   msg_message).
Definition rule_token : Rule :=
  (fun p => truthy (turnstileToken p), msg_token).

Definition rules : list Rule :=
  [rule_name; rule_email; rule_subject; rule_message; rule_token].

Definition holds (p : ContactPayload) (r : Rule) : bool := fst r p.

Definition first_violation (p : ContactPayload) : option jsstring :=
  option_map snd (find (fun r => negb (holds p r)) rules).

(** The shape of an address the pattern accepts: [local@domain.tld], the
    three parts non-empty and free of white space and of [@]. *)
Definition address_part (s : jsstring) : Prop :=
  s <> [] /\ Forall (fun c => not_space_or_at c = true) s.

Definition address_shape (s : jsstring) : Prop :=
  exists a b c,
    s = a ++ 64%N :: b ++ 46%N :: c
    /\ address_part a /\ address_part b /\ address_part c.

(** ** Vocabulary for the sanitizer *)

(** A string with no white space at either end. *)
Definition trimmed (s : jsstring) : Prop :=
  (forall c r, s = c :: r -> is_whitespace c = false)
  /\ (forall c r, s = r ++ [c] -> is_whitespace c = false).

Definition trimmed_value (v : JsValue) : Prop :=
  exists s, v = JString s /\ trimmed s.

(** The five properties that [sanitizePayload] sends through [trim]. *)
Definition trimmed_keys : list jsstring :=
  [js "name"; js "email"; js "phone"; js "deadline"; js "message"].

(** The value of a property of a payload that is not [null]: [undefined]
    when the payload is not an object or has no such key. *)
Definition property (v : JsValue) (k : jsstring) : JsValue :=
  match v with
  | JObject props =>
      match own_property props k with
      | Some x => x
      | None => JUndefined
      end
  | _ => JUndefined
  end.

(** A value [trim] can be called on after [?? '']: a string, [null] or
    [undefined]. *)
Definition string_or_nullish (v : JsValue) : bool :=
  match v with
  | JString _ | JNull | JUndefined => true
  | _ => false
  end.

(** The string a property stands for once [?? ''] is applied. *)
Definition text_of (v : JsValue) : jsstring :=
  match v with
  | JString s => s
  | _ => []
  end.

(** The sanitizer as the specification words it: every payload yields a
    submission whose [name], [email], [phone], [deadline], [message] and
    [turnstileToken] are trimmed strings. *)
Definition sanitizer_trims_token_too : Prop :=
  forall raw : JsValue,
    exists p, sanitizePayload raw = Ok p
              /\ trimmed (name p) /\ trimmed (email p) /\ trimmed (phone p)
              /\ trimmed (deadline p) /\ trimmed (message p)
              /\ trimmed_value (turnstileToken p).

(** ** Vocabulary for the handler *)

(** The JSON answer of the handler to [request]: the CORS headers are
    computed from the request's [Origin] and the configured allow-list. *)
Definition respond (Number_toString : spec_float -> jsstring)
  (request : Request) (env : Env) (status : N) (body : JsValue)
  (extraHeaders : HeaderRecord) : Response :=
  buildJsonResponse Number_toString status body
    (resolveAllowedOrigin (headers_get request (js "Origin"))
       (ALLOWED_ORIGINS env)) extraHeaders.

(** What remains for a valid submission: verification, then dispatch. *)
Definition verify_and_send (Number_toString : spec_float -> jsstring)
  (request : Request) (env : Env)
  (p : ContactPayload) (net : Network) : Result Response * list Event :=
  match verifyTurnstile Number_toString (turnstileToken p)
          (TURNSTILE_SECRET env)
          (headers_get request (js "CF-Connecting-IP")) net with
  | (Throw e, t) => (Throw e, t)
  | (Ok false, t) =>
      (Ok (respond Number_toString request env 403%N
             (failure (js "Bot verification failed")) []), t)
  | (Ok true, t) =>
      match sendResendEmail Number_toString p env net with
      | (Ok _, t') =>
          (Ok (respond Number_toString request env 200%N success []), t ++ t')
      | (Throw e, t') =>
          (Ok (respond Number_toString request env 502%N
                 (failure msg_delivery) []),
           t ++ t' ++ [Console (js "error")
                         [LogText (js "Resend delivery failure"); LogError e]])
      end
  end.

(** ** Vocabulary for CORS *)

(** The configured allow-list: split on commas, trimmed, empty entries
    discarded. *)
Definition allow_list (configured : jsstring) : list jsstring :=
  filter nonempty (map trim (split 44%N configured)).

(** The two headers of a response that depend on the request's origin. *)
Definition allow_origin_header (origin configured : option jsstring)
  : option jsstring :=
  header_value (buildCorsHeaders (resolveAllowedOrigin origin configured))
    (js "Access-Control-Allow-Origin").

Definition vary_header (origin configured : option jsstring)
  : option jsstring :=
  header_value (buildCorsHeaders (resolveAllowedOrigin origin configured))
    (js "Vary").

(** ** Vocabulary for verification and dispatch *)

(** The one request [verifyTurnstile] sends. *)
Definition siteverify_request (token_text secret : jsstring)
  (ip : option jsstring) : FetchRequest :=
  {| fetch_url := turnstile_url;
     fetch_method := js "POST";
     fetch_headers :=
       [(js "Content-Type", js "application/x-www-form-urlencoded")];
     fetch_body :=
       FormBody
         ([(js "secret", toUSVString secret);
           (js "response", toUSVString token_text)] ++
          (if absent ip then []
           else match ip with
                | Some i => [(js "remoteip", toUSVString i)]
                | None => []
                end)) |}.

(** The delivery-disabled flag is set to [true]. *)
Definition delivery_disabled (env : Env) : bool :=
  match RESEND_DISABLED env with
  | Some flag => eqb flag (js "true")
  | None => false
  end.

(** The recipients: the configured string split on commas, trimmed, empty
    entries discarded. *)
Definition recipients (env : Env) : list jsstring :=
  filter nonempty (map trim (split 44%N (TO_EMAIL env))).

(** The text of the two envelopes with a fixed body. *)
Definition success_text : jsstring :=
  js "{" ++ dq ++ js "success" ++ dq ++ js ":true}".

Definition failure_text (error : jsstring) : jsstring :=
  js "{" ++ dq ++ js "success" ++ dq ++ js ":false," ++ dq ++ js "error" ++
  dq ++ js ":" ++ dq ++ error ++ dq ++ js "}".

(** A request that reaches verification: a [POST] to the contact path whose
    body sanitizes to [p], and [p] breaks no rule. *)
Definition valid_submission (request : Request) (p : ContactPayload) : Prop :=
  method request = js "POST"
  /\ pathname request = js "/api/contact"
  /\ (exists raw, json request = Some raw /\ sanitizePayload raw = Ok p)
  /\ validatePayload p = None.

(** The verifier says the submitter is human. *)
Definition human_verified (Number_toString : spec_float -> jsstring)
  (request : Request) (env : Env) (p : ContactPayload) (net : Network)
  : Prop :=
  exists t,
    verifyTurnstile Number_toString (turnstileToken p) (TURNSTILE_SECRET env)
      (headers_get request (js "CF-Connecting-IP")) net = (Ok true, t).

(** The handler rejects: the error escapes it and the runtime answers. *)
Definition uncaught {A} (run : Result A * list Event) : Prop :=
  exists e, fst run = Throw e.

(** The dispatcher as the specification words it: an empty recipient list
    is fatal to the request. *)
Definition empty_recipients_are_fatal : Prop :=
  forall Number_toString request env p net,
    valid_submission request p ->
    human_verified Number_toString request env p net ->
    recipients env = [] ->
    uncaught (worker.fetch Number_toString request env net).

(** The [success] field of the body of a verification answer; [None] when
    it is missing: the body is not JSON, is not an object, or is an object
    without that key. *)
Definition success_field (r : FetchResponse) : option JsValue :=
  match resp_json r with
  | Some (JObject props) => own_property props (js "success")
  | _ => None
  end.

Definition missing_or_falsy (field : option JsValue) : Prop :=
  match field with
  | None => True
  | Some v => truthy v = false
  end.

(** The verifier as the specification words it: with the secret
    configured, a success answer whose [success] field is missing or falsy
    gives the verdict [false]. *)
Definition missing_success_is_a_false_verdict : Prop :=
  forall Number_toString token secret ip net outcome t rq r,
    secret <> [] ->
    verifyTurnstile Number_toString token secret ip net = (outcome, t) ->
    In rq (fetched t) -> net rq = Responded r -> resp_ok r = true ->
    missing_or_falsy (success_field r) ->
    outcome = Ok false.

(** The one request [sendResendEmail] sends, from the subject line and the
    two bodies it built. *)
Definition resend_request (Number_toString : spec_float -> jsstring)
  (payload : ContactPayload) (env : Env)
  (subject_text textBody htmlBody : jsstring) : FetchRequest :=
  {| fetch_url := resend_url;
     fetch_method := js "POST";
     fetch_headers :=
       [(js "Authorization", js "Bearer " ++ RESEND_API_KEY env);
        (js "Content-Type", js "application/json")];
     fetch_body :=
       StringBody
         (JSON_stringify Number_toString
            (JObject
               [(js "from", JString (FROM_EMAIL env));
                (js "to", JArray (map JString (recipients env)));
                (js "reply_to", JString (email payload));
                (js "subject",
                 JString (js "[" ++ site_or env (js "WANYA") ++ js "] " ++
                          subject_text ++ js " from " ++ name payload));
                (js "text", JString textBody);
                (js "html", JString htmlBody)])) |}.

(** The error [sendResendEmail] throws for an answer outside 200-299. *)
Definition resend_error (r : FetchResponse) : JsError :=
  Error (js "Resend API error: " ++ decimal (resp_status r) ++ js " " ++
         resp_text r).

(** ** Vocabulary for the mail bodies *)

(** The escape of one code unit, as the specification lists it. *)
Definition escape_unit (c : codeunit) : jsstring :=
  if (c =? 38)%N then js "&amp;"
  else if (c =? 60)%N then js "&lt;"
  else if (c =? 62)%N then js "&gt;"
  else [c].

(** The fields of a submission that the mail shows; [subject] and [budget]
    by their text. *)
Definition shown_fields (p : ContactPayload)
  (subject_text budget_text : jsstring) : list jsstring :=
  [name p; email p; phone p; subject_text; budget_text; deadline p;
   message p].

(** A row of the HTML table, for a value that is a string. *)
Definition row_text (label value : jsstring) : jsstring :=
  js "<tr><th align=" ++ dq ++ js "left" ++ dq ++ js " style=" ++ dq ++
  js "padding:4px 8px;" ++ dq ++ js ">" ++ label ++
  js "</th><td style=" ++ dq ++ js "padding:4px 8px;" ++ dq ++ js ">" ++
  escape_string value ++ js "</td></tr>".

(** The lines of the text body, for a submission whose [subject] and
    [budget] are strings. *)
Definition text_lines (p : ContactPayload)
  (subject_text budget_text : jsstring) : list jsstring :=
  [js "Name: " ++ name p;
   js "Email: " ++ email p;
   js "Phone: " ++ or_else (phone p) (js "-");
   js "Subject: " ++ subject_text;
   js "Budget: " ++ or_else budget_text (js "-");
   js "Deadline: " ++ or_else (deadline p) (js "-");
   js "";
   js "Message:";
   message p].

(** ** Vocabulary for the runs of the handler *)

(** The origin the handler resolves for a request. *)
Definition allowed_origin (request : Request) (env : Env) : option jsstring :=
  resolveAllowedOrigin (headers_get request (js "Origin"))
    (ALLOWED_ORIGINS env).

(** The status codes the handler answers with. *)
Definition handler_statuses : list N :=
  [200; 204; 400; 403; 404; 405; 422; 502]%N.

(** The targets of the requests of a trace, in order. *)
Definition targets (t : list Event) : list jsstring :=
  map fetch_url (fetched t).

Definition is_string (v : JsValue) : bool :=
  match v with
  | JString _ => true
  | _ => false
  end.

(** A string made of white space only (the empty string included). *)
Definition blank (s : jsstring) : Prop :=
  Forall (fun c => is_whitespace c = true) s.

(** The inverse of [escape]: an entity is read back as the character it
    stands for, anything else is copied. *)
Fixpoint unescape (s : jsstring) : jsstring :=
  match s with
  | 38%N :: 97%N :: 109%N :: 112%N :: 59%N :: r => 38%N :: unescape r
  | 38%N :: 108%N :: 116%N :: 59%N :: r => 60%N :: unescape r
  | 38%N :: 103%N :: 116%N :: 59%N :: r => 62%N :: unescape r
  | c :: r => c :: unescape r
  | [] => []
  end.

(** [inner] is [outer] without a run of white space at each end. *)
Definition stripped_of (outer inner : jsstring) : Prop :=
  exists before after,
    outer = before ++ inner ++ after /\ blank before /\ blank after.

(** A JSON value that is not an object and not [null]. *)
Definition is_scalar_or_array (v : JsValue) : bool :=
  match v with
  | JBool _ | JNumber _ | JString _ | JArray _ => true
  | _ => false
  end.

(** The verification call the handler makes for [request] when the token
    of the submission is the string [token]. *)
Definition verification_call (request : Request) (env : Env)
  (token : jsstring) : FetchRequest :=
  siteverify_request token (TURNSTILE_SECRET env)
    (headers_get request (js "CF-Connecting-IP")).



(** Two payloads that agree on the eight properties the sanitizer reads. *)
Definition sanitized_keys : list jsstring :=
  [js "name"; js "email"; js "phone"; js "subject"; js "budget";
   js "deadline"; js "message"; js "turnstileToken"].

Definition agree_on_read_properties (a b : JsValue) : Prop :=
  nullish a = nullish b
  /\ forall k, In k sanitized_keys -> property a k = property b k.

(** ** Sample inputs *)

Definition token_with_spaces : JsValue :=
  JObject [(js "turnstileToken", JString (js " tok "))].

Definition number_5 : JsValue := JNumber (S754_finite false 5 Z0).

Definition sample_payload : JsValue :=
  JObject [(js "name", JString (js "  Taro "));
           (js "email", JString (js "user@example.com"));
           (js "message", JString (js " hello world "));
           (js "turnstileToken", JString (js " tok "))].

(** A stand-in for Number::toString where a concrete run needs one. *)
Definition digits_unknown : spec_float -> jsstring := fun _ => js "0".

Definition no_headers : jsstring -> option jsstring := fun _ => None.

Definition sample_env : Env :=
  {| RESEND_API_KEY := js "test-api-key";
     FROM_EMAIL := js "contact@example.com";
     TO_EMAIL := js "owner@example.com";
     TURNSTILE_SECRET := js "test-secret";
     ALLOWED_ORIGINS := Some (js "https://test.local");
     SITE_NAME := Some (js "Test WANYA");
     RESEND_DISABLED := None |}.

(** The submission of [tests/contact.test.ts]. *)
Definition test_payload : JsValue :=
  JObject [(js "name", JString (js "テストユーザー"));
           (js "email", JString (js "user@example.com"));
           (js "phone", JString (js ""));
           (js "subject", JString (js "テスト送信"));
           (js "budget", JString (js "under_10000"));
           (js "deadline", JString (js "ASAP"));
           (js "message", JString (js "これはローカルテストです。"));
           (js "turnstileToken",
            JString (js "1x0000000000000000000000000000000AA"))].

Definition test_submission : ContactPayload :=
  {| name := js "テストユーザー";
     email := js "user@example.com";
     phone := js "";
     subject := JString (js "テスト送信");
     budget := JString (js "under_10000");
     deadline := js "ASAP";
     message := js "これはローカルテストです。";
     turnstileToken := JString (js "1x0000000000000000000000000000000AA") |}.

Definition test_headers (k : jsstring) : option jsstring :=
  if eqb k (js "Origin") then Some (js "https://test.local")
  else if eqb k (js "CF-Connecting-IP") then Some (js "127.0.0.1")
  else if eqb k (js "Content-Type") then Some (js "application/json")
  else None.

Definition test_request : Request :=
  {| method := js "POST"; pathname := js "/api/contact";
     headers_get := test_headers; json := Some test_payload |}.

(** The environment of the test, with delivery disabled, and the same with
    delivery enabled. *)
Definition test_env : Env :=
  {| RESEND_API_KEY := js "test-api-key";
     FROM_EMAIL := js "contact@example.com";
     TO_EMAIL := js "owner@example.com";
     TURNSTILE_SECRET := js "test-secret";
     ALLOWED_ORIGINS := Some (js "https://test.local");
     SITE_NAME := Some (js "Test WANYA");
     RESEND_DISABLED := Some (js "true") |}.

Definition env_without_recipients : Env :=
  {| RESEND_API_KEY := js "test-api-key";
     FROM_EMAIL := js "contact@example.com";
     TO_EMAIL := js " , ";
     TURNSTILE_SECRET := js "test-secret";
     ALLOWED_ORIGINS := Some (js "https://test.local");
     SITE_NAME := Some (js "Test WANYA");
     RESEND_DISABLED := None |}.

(** Stand-ins for the two services: [turnstile] answers the verification
    endpoint, [resend] the mail endpoint; any other target is refused, as in
    the test. *)
Definition stub_network (turnstile resend : FetchResponse) : Network :=
  fun rq =>
    if eqb (fetch_url rq) turnstile_url then Responded turnstile
    else if eqb (fetch_url rq) resend_url then Responded resend
    else Rejected (Error (js "Unexpected fetch target")).

Definition turnstile_yes : FetchResponse :=
  {| resp_status := 200; resp_text := js "{}"; resp_json := Some success |}.

Definition turnstile_no : FetchResponse :=
  {| resp_status := 200; resp_text := js "{}";
     resp_json := Some (JObject [(js "success", JBool false)]) |}.

Definition turnstile_down : FetchResponse :=
  {| resp_status := 500; resp_text := js "oops"; resp_json := None |}.

Definition turnstile_null : FetchResponse :=
  {| resp_status := 200; resp_text := js "null"; resp_json := Some JNull |}.

Definition turnstile_not_json : FetchResponse :=
  {| resp_status := 200; resp_text := js "<html>"; resp_json := None |}.

Definition resend_accepts : FetchResponse :=
  {| resp_status := 200; resp_text := js "{}"; resp_json := Some (JObject []) |}.

Definition resend_down : FetchResponse :=
  {| resp_status := 500; resp_text := js "upstream exploded";
     resp_json := None |}.

Definition friendly_network : Network := stub_network turnstile_yes resend_accepts.

Definition get_elsewhere : Request :=
  {| method := js "GET"; pathname := js "/"; headers_get := no_headers;
     json := None |}.

Definition post_with_numeric_name : Request :=
  {| method := js "POST"; pathname := js "/api/contact";
     headers_get := no_headers;
     json := Some (JObject [(js "name", number_5)]) |}.

Definition script_submission : ContactPayload :=
  {| name := js "Tom & Jerry";
     email := js "user@example.com";
     phone := js "";
     subject := JString (js "a<b");
     budget := JString (js "");
     deadline := js "ASAP";
     message := js "hello <script>alert(1)</script>";
     turnstileToken := JString (js "token") |}.

(** The test submission with a number where the subject should be. *)
Definition numeric_subject_payload : JsValue :=
  JObject [(js "name", JString (js "テストユーザー"));
           (js "email", JString (js "user@example.com"));
           (js "subject", number_5);
           (js "message", JString (js "これはローカルテストです。"));
           (js "turnstileToken", JString (js "token"))].

Definition preflight_request : Request :=
  {| method := js "OPTIONS"; pathname := js "/anything";
     headers_get := test_headers; json := None |}.

Definition put_on_contact : Request :=
  {| method := js "PUT"; pathname := js "/api/contact";
     headers_get := test_headers; json := None |}.

Definition post_without_json : Request :=
  {| method := js "POST"; pathname := js "/api/contact";
     headers_get := test_headers; json := None |}.

Definition post_with_array : Request :=
  {| method := js "POST"; pathname := js "/api/contact";
     headers_get := test_headers;
     json := Some (JArray [JString (js "テストユーザー")]) |}.

Definition env_without_secret : Env :=
  {| RESEND_API_KEY := js "test-api-key";
     FROM_EMAIL := js "contact@example.com";
     TO_EMAIL := js "owner@example.com";
     TURNSTILE_SECRET := js "";
     ALLOWED_ORIGINS := Some (js "https://test.local");
     SITE_NAME := Some (js "Test WANYA");
     RESEND_DISABLED := None |}.

Definition numeric_subject_submission : ContactPayload :=
  {| name := js "テストユーザー";
     email := js "user@example.com";
     phone := js "";
     subject := number_5;
     budget := JString (js "");
     deadline := js "";
     message := js "これはローカルテストです。";
     turnstileToken := JString (js "token") |}.

Definition numeric_subject_request : Request :=
  {| method := js "POST"; pathname := js "/api/contact";
     headers_get := test_headers; json := Some numeric_subject_payload |}.

Definition test_payload_with_more : JsValue :=
  JObject [(js "utm_source", JString (js "newsletter"));
           (js "name", JString (js "テストユーザー"));
           (js "email", JString (js "user@example.com"));
           (js "phone", JString (js ""));
           (js "subject", JString (js "テスト送信"));
           (js "budget", JString (js "under_10000"));
           (js "deadline", JString (js "ASAP"));
           (js "message", JString (js "これはローカルテストです。"));
           (js "turnstileToken",
            JString (js "1x0000000000000000000000000000000AA"));
           (js "admin", JBool true)].

(** * Part II: properties *)

(** ** Strings *)

Lemma eqb_eq a b : eqb a b = true <-> a = b.
Proof. unfold eqb. destruct (list_eq_dec N.eq_dec a b); split; congruence. Qed.

Lemma eqb_refl a : eqb a a = true.
Proof. now apply eqb_eq. Qed.

Lemma eqb_neq a b : eqb a b = false <-> a <> b.
Proof. unfold eqb. destruct (list_eq_dec N.eq_dec a b); split; congruence. Qed.

Lemma nonempty_true s : nonempty s = true <-> s <> [].
Proof. destruct s; simpl; split; congruence. Qed.

Lemma nonempty_false s : nonempty s = false <-> s = [].
Proof. destruct s; simpl; split; congruence. Qed.

Lemma truthy_string s : truthy (JString s) = true <-> s <> [].
Proof. apply nonempty_true. Qed.

(** ** Regular expressions: [matches] decides the language *)

Module RegexFacts.
Import Regex.

Lemma cat_inv r1 r2 s :
  lang (Cat r1 r2) s -> exists s1 s2, s = s1 ++ s2 /\ lang r1 s1 /\ lang r2 s2.
Proof. intro H. inversion H; subst. eauto. Qed.

Lemma alt_inv r1 r2 s : lang (Alt r1 r2) s -> lang r1 s \/ lang r2 s.
Proof. intro H. inversion H; subst; auto. Qed.

Lemma class_inv cls s : lang (Class cls) s -> exists c, s = [c] /\ cls c = true.
Proof. intro H. inversion H; subst. eauto. Qed.

Lemma nullable_lang r : nullable r = true <-> lang r [].
Proof.
  induction r as [| | cls | r1 IH1 r2 IH2 | r1 IH1 r2 IH2 | r IH]; simpl.
  - split; [discriminate | intro H; inversion H].
  - split; [constructor | reflexivity].
  - split; [discriminate | intro H; inversion H].
  - rewrite andb_true_iff, IH1, IH2. split.
    + intros [H1 H2]. exact (L_cat H1 H2).
    + intro H. apply cat_inv in H as (s1 & s2 & Heq & H1 & H2).
      symmetry in Heq. apply app_eq_nil in Heq as [-> ->]. now split.
  - rewrite orb_true_iff, IH1, IH2. split.
    + intros [H|H]; [now apply L_alt_l | now apply L_alt_r].
    + apply alt_inv.
  - split; [constructor | reflexivity].
Qed.

Lemma star_cons_inv r c s :
  lang (Star r) (c :: s) ->
  exists s1 s2, s = s1 ++ s2 /\ lang r (c :: s1) /\ lang (Star r) s2.
Proof.
  intro H. remember (Star r) as r' eqn:Er. remember (c :: s) as w eqn:Ew.
  induction H as [| | | | | |r0 s1 s2 H1 _ H2 IH2]; try discriminate.
  injection Er as ->. destruct s1 as [|c1 s1]; simpl in Ew.
  - apply IH2; auto.
  - injection Ew as -> <-. now exists s1, s2.
Qed.

Lemma deriv_cat_lang c r1 r2 s :
  (forall t, lang (deriv c r1) t <-> lang r1 (c :: t)) ->
  lang (Cat (deriv c r1) r2) s <->
  exists s1 s2, s = s1 ++ s2 /\ lang r1 (c :: s1) /\ lang r2 s2.
Proof.
  intro IH1. split.
  - intro H. apply cat_inv in H as (s1 & s2 & -> & H1 & H2).
    apply IH1 in H1. eauto.
  - intros (s1 & s2 & -> & H1 & H2). apply L_cat; [now apply IH1 | assumption].
Qed.

Lemma deriv_lang c r : forall s, lang (deriv c r) s <-> lang r (c :: s).
Proof.
  induction r as [| | cls | r1 IH1 r2 IH2 | r1 IH1 r2 IH2 | r IH];
    simpl; intro s.
  - split; intro H; inversion H.
  - split; intro H; inversion H.
  - destruct (cls c) eqn:E; split; intro H.
    + inversion H; subst. now constructor.
    + apply class_inv in H as (c' & Heq & _). injection Heq as _ ->. constructor.
    + inversion H.
    + apply class_inv in H as (c' & Heq & Hc). injection Heq as <- _. congruence.
  - destruct (nullable r1) eqn:E; split; intro H.
    + apply alt_inv in H as [H|H].
      * apply (deriv_cat_lang _ _ IH1) in H as (s1 & s2 & -> & H1 & H2).
        exact (L_cat H1 H2).
      * apply (@L_cat r1 r2 [] (c :: s));
          [now apply nullable_lang | now apply IH2].
    + apply cat_inv in H as (s1 & s2 & Heq & H1 & H2).
      destruct s1 as [|c1 s1]; simpl in Heq.
      * subst s2. apply L_alt_r. now apply IH2.
      * injection Heq as <- ->. apply L_alt_l.
        apply (deriv_cat_lang _ _ IH1). eauto.
    + apply (deriv_cat_lang _ _ IH1) in H as (s1 & s2 & -> & H1 & H2).
      exact (L_cat H1 H2).
    + apply cat_inv in H as (s1 & s2 & Heq & H1 & H2).
      destruct s1 as [|c1 s1]; simpl in Heq.
      * apply nullable_lang in H1. congruence.
      * injection Heq as <- ->. apply (deriv_cat_lang _ _ IH1). eauto.
  - split; intro H.
    + apply alt_inv in H as [H|H];
        [apply L_alt_l; now apply IH1 | apply L_alt_r; now apply IH2].
    + apply alt_inv in H as [H|H];
        [apply L_alt_l; now apply IH1 | apply L_alt_r; now apply IH2].
  - split; intro H.
    + apply (deriv_cat_lang _ _ IH) in H as (s1 & s2 & -> & H1 & H2).
      exact (L_star_app H1 H2).
    + apply star_cons_inv in H as (s1 & s2 & -> & H1 & H2).
      apply (deriv_cat_lang _ _ IH). eauto.
Qed.

Lemma matches_lang s : forall r, matches r s = true <-> lang r s.
Proof.
  induction s as [|c s IH]; intro r; simpl.
  - apply nullable_lang.
  - rewrite IH. apply deriv_lang.
Qed.

Lemma lang_star_class cls s :
  lang (Star (Class cls)) s <-> Forall (fun c => cls c = true) s.
Proof.
  split.
  - intro H. remember (Star (Class cls)) as r eqn:Er.
    induction H as [| | | | | |r0 s1 s2 H1 _ H2 IH2]; try discriminate.
    + constructor.
    + injection Er as ->. apply class_inv in H1 as (c & -> & Hc).
      simpl. constructor; auto.
  - induction 1 as [|c s Hc _ IH].
    + constructor.
    + apply (@L_star_app (Class cls) [c] s); [now constructor | assumption].
Qed.

Lemma lang_plus_class cls s :
  lang (Plus (Class cls)) s <-> s <> [] /\ Forall (fun c => cls c = true) s.
Proof.
  unfold Plus. split.
  - intro H. apply cat_inv in H as (s1 & s2 & -> & H1 & H2).
    apply class_inv in H1 as (c & -> & Hc). apply lang_star_class in H2.
    split; [discriminate | simpl; now constructor].
  - intros [Hne Hall]. destruct s as [|c s]; [congruence|].
    inversion Hall; subst.
    apply (@L_cat (Class cls) _ [c] s); [now constructor|].
    now apply lang_star_class.
Qed.

Lemma lang_char c s : lang (Char c) s <-> s = [c].
Proof.
  unfold Char. split.
  - intro H. apply class_inv in H as (c' & -> & Hc).
    apply N.eqb_eq in Hc. now subst.
  - intros ->. constructor. apply N.eqb_refl.
Qed.

End RegexFacts.

(** [emailRegex.test] accepts exactly the strings [local@domain.tld]. *)
Lemma emailRegex_test_shape s :
  Regex.test emailRegex s = true <-> address_shape s.
Proof.
  unfold Regex.test. rewrite RegexFacts.matches_lang.
  unfold emailRegex, address_shape, address_part. split.
  - intro H.
    apply RegexFacts.cat_inv in H as (a & s1 & -> & Ha & H).
    apply RegexFacts.cat_inv in H as (at' & s2 & -> & Hat & H).
    apply RegexFacts.cat_inv in H as (b & s3 & -> & Hb & H).
    apply RegexFacts.cat_inv in H as (dot & c & -> & Hdot & Hc).
    apply RegexFacts.lang_char in Hat, Hdot. subst.
    apply RegexFacts.lang_plus_class in Ha, Hb, Hc.
    exists a, b, c. simpl. auto.
  - intros (a & b & c & -> & Ha & Hb & Hc).
    apply RegexFacts.lang_plus_class in Ha, Hb, Hc.
    apply Regex.L_cat; [assumption|].
    apply (@Regex.L_cat _ _ [64%N] (b ++ 46%N :: c));
      [now apply RegexFacts.lang_char|].
    apply Regex.L_cat; [assumption|].
    apply (@Regex.L_cat _ _ [46%N] c); [now apply RegexFacts.lang_char|].
    assumption.
Qed.

Example email_user_passes : Regex.test emailRegex (js "user@example.com") = true.
Proof. reflexivity. Qed.

Example email_without_at_fails : Regex.test emailRegex (js "not-an-email") = false.
Proof. reflexivity. Qed.

Example email_without_tld_fails : Regex.test emailRegex (js "a@b") = false.
Proof. reflexivity. Qed.

(** ** The validator *)

Lemma messages_distinct : NoDup (map snd rules).
Proof.
  repeat (constructor; [cbv [In map rules]; intro H;
    repeat (destruct H as [H|H]; [apply eqb_eq in H; vm_compute in H; discriminate|]);
    exact H|]).
  constructor.
Qed.

Lemma NoDup_app_disjoint (A : Type) (l1 l2 : list A) (a : A) :
  NoDup (l1 ++ l2) -> In a l1 -> In a l2 -> False.
Proof.
  induction l1 as [|x l1 IH]; simpl; [tauto|].
  intros Hnd [->|H1] H2.
  - apply NoDup_cons_iff in Hnd as [Hx _]. apply Hx. apply in_or_app. now right.
  - apply NoDup_cons_iff in Hnd as [_ Hnd]. now apply IH.
Qed.

Section FirstMatch.

Variables (A : Type) (f : A -> bool).

(** When an element satisfies [f], [find] stops at it or before it. *)
Lemma find_stops (pre post : list A) (r : A) :
  f r = true ->
  exists x, find f (pre ++ r :: post) = Some x /\ In x (pre ++ [r]).
Proof.
  intro Hr. induction pre as [|a pre IH]; simpl.
  - rewrite Hr. eauto.
  - destruct (f a); [eauto|].
    destruct IH as (x & -> & Hx). eauto.
Qed.

End FirstMatch.

Lemma validatePayload_refines (p : ContactPayload) :
  validatePayload p = first_violation p.
Proof.
  unfold validatePayload, first_violation.
  cbv [rules find holds rule_name rule_email rule_subject rule_message
       rule_token fst snd option_map].
  rewrite !Nat.ltb_antisym.
  generalize (nonempty (name p)) (2 <=? List.length (name p))
    (nonempty (email p)) (Regex.test emailRegex (email p))
    (truthy (subject p)) (nonempty (message p))
    (10 <=? List.length (message p)) (truthy (turnstileToken p)).
  intros [] [] [] [] [] [] [] []; reflexivity.
Qed.

(** C1.  The validator is the first-failure-wins reading of the five rules
    in the order name (non-empty and at least two code units), email
    (non-empty and matching the address pattern), subject (present), message
    (non-empty and at least ten code units), turnstileToken (present): it
    returns the message of the first rule that does not hold; it returns no
    error exactly when all five hold; and when a rule fails, the message of a
    rule that comes after it is never the answer. *)
Theorem validatePayload_first_violated_rule (p : ContactPayload) :
  validatePayload p = option_map snd (find (fun r => negb (holds p r)) rules)
  /\ (validatePayload p = None <-> forall r, In r rules -> holds p r = true)
  /\ (forall pre r post,
        rules = pre ++ r :: post -> holds p r = false ->
        (exists x, In x (pre ++ [r]) /\ validatePayload p = Some (snd x))
        /\ forall later, In later post -> validatePayload p <> Some (snd later)).
Proof.
  pose proof (validatePayload_refines p) as Href.
  unfold first_violation in Href.
  split; [exact Href|]. split.
  - rewrite Href. split.
    + intros Hnone r Hr.
      destruct (find (fun r0 => negb (holds p r0)) rules) eqn:E;
        [discriminate|].
      pose proof (find_none _ _ E r Hr) as H. simpl in H.
      now apply negb_false_iff in H.
    + intro Hall.
      destruct (find (fun r0 => negb (holds p r0)) rules) eqn:E;
        [|reflexivity].
      apply find_some in E as [Hin Hneg]. rewrite (Hall _ Hin) in Hneg.
      discriminate.
  - intros pre r post Hsplit Hfail.
    assert (Hr : negb (holds p r) = true) by now rewrite Hfail.
    destruct (find_stops (fun r0 => negb (holds p r0)) pre post r Hr)
      as (x & Hfind & Hx).
    rewrite Href, Hsplit, Hfind. simpl. split; [eauto|].
    intros later Hlater [= Heq].
    pose proof messages_distinct as Hnd. rewrite Hsplit in Hnd.
    replace (pre ++ r :: post) with ((pre ++ [r]) ++ post) in Hnd
      by (rewrite <- app_assoc; reflexivity).
    rewrite map_app in Hnd.
    apply (NoDup_app_disjoint _ _ (snd x) Hnd);
      [now apply in_map | rewrite Heq; now apply in_map].
Qed.

Example name_of_length_1_fails :
  validatePayload {| name := js "a"; email := js "user@example.com";
                     phone := []; subject := JString (js "s");
                     budget := JString []; deadline := [];
                     message := js "0123456789";
                     turnstileToken := JString (js "t") |} = Some msg_name.
Proof. reflexivity. Qed.

Example name_of_length_2_passes :
  validatePayload {| name := js "ab"; email := js "user@example.com";
                     phone := []; subject := JString (js "s");
                     budget := JString []; deadline := [];
                     message := js "0123456789";
                     turnstileToken := JString (js "t") |} = None.
Proof. reflexivity. Qed.

Example message_of_length_9_fails :
  validatePayload {| name := js "ab"; email := js "user@example.com";
                     phone := []; subject := JString (js "s");
                     budget := JString []; deadline := [];
                     message := js "012345678";
                     turnstileToken := JString (js "t") |} = Some msg_message.
Proof. reflexivity. Qed.

Example earlier_rule_wins :
  validatePayload {| name := js ""; email := js "nope";
                     phone := []; subject := JString [];
                     budget := JString []; deadline := [];
                     message := js "";
                     turnstileToken := JString [] |} = Some msg_name.
Proof. reflexivity. Qed.

(** ** Trimming *)

Lemma trimStart_head s c r : trimStart s = c :: r -> is_whitespace c = false.
Proof.
  induction s as [|a s IH]; simpl; [discriminate|].
  destruct (is_whitespace a) eqn:E; [exact IH|].
  intros [= <- _]. exact E.
Qed.

(** [trimStart] drops a run of white space and keeps the rest. *)
Lemma trimStart_split s :
  exists ws, s = ws ++ trimStart s /\ Forall (fun c => is_whitespace c = true) ws.
Proof.
  induction s as [|a s (ws & IH & Hws)]; simpl.
  - now exists [].
  - destruct (is_whitespace a) eqn:E.
    + exists (a :: ws). split; [simpl; congruence | now constructor].
    + now exists [].
Qed.

Lemma trimEnd_split s :
  exists ws, s = trimEnd s ++ ws /\ Forall (fun c => is_whitespace c = true) ws.
Proof.
  unfold trimEnd. destruct (trimStart_split (rev s)) as (ws & Heq & Hws).
  exists (rev ws). split.
  - rewrite <- rev_app_distr, <- Heq. symmetry. apply rev_involutive.
  - apply Forall_rev. exact Hws.
Qed.

Lemma trimEnd_last s c r : trimEnd s = r ++ [c] -> is_whitespace c = false.
Proof.
  unfold trimEnd. intro H. apply (f_equal (@rev _)) in H.
  rewrite rev_involutive, rev_app_distr in H. simpl in H.
  eapply trimStart_head. eassumption.
Qed.

Lemma trimEnd_keeps_head s c r :
  trimEnd s = c :: r -> exists r', s = c :: r'.
Proof.
  intro H. destruct (trimEnd_split s) as (ws & Heq & _).
  rewrite H in Heq. simpl in Heq. eauto.
Qed.

Lemma trim_trimmed s : trimmed (trim s).
Proof.
  unfold trim. split.
  - intros c r H. apply trimEnd_keeps_head in H as (r' & H).
    eapply trimStart_head. eassumption.
  - intros c r H. eapply trimEnd_last. eassumption.
Qed.

Example trim_strips_both_ends : trim (js "  a b	 ") = js "a b".
Proof. reflexivity. Qed.

Example trim_strips_ideographic_space : trim (12288%N :: js "a") = js "a".
Proof. reflexivity. Qed.

Example split_keeps_empties :
  split 44%N (js "a,,b,") = [js "a"; js ""; js "b"; js ""].
Proof. reflexivity. Qed.

(** ** The sanitizer *)

Lemma get_property raw k : nullish raw = false -> get raw k = Ok (property raw k).
Proof.
  destruct raw; simpl; try discriminate; try reflexivity.
  intros _. destruct (own_property props k); reflexivity.
Qed.

Lemma get_ok_property raw k v : get raw k = Ok v -> nullish raw = false /\ v = property raw k.
Proof.
  destruct raw; simpl; try discriminate;
    try (destruct (own_property props k)); intros [= <-]; auto.
Qed.

Lemma call_trim_text v :
  string_or_nullish v = true -> call_trim (v ?? JString (js "")) = Ok (trim (text_of v)).
Proof. destruct v; simpl; try discriminate; reflexivity. Qed.

Lemma call_trim_throws v :
  string_or_nullish v = false -> call_trim (v ?? JString (js "")) = Throw TypeError.
Proof. destruct v; simpl; try discriminate; reflexivity. Qed.

Lemma call_trim_cases v :
  call_trim (v ?? JString (js "")) = Ok (trim (text_of v))
  \/ call_trim (v ?? JString (js "")) = Throw TypeError.
Proof.
  destruct (string_or_nullish v) eqn:E;
    [left; now apply call_trim_text | right; now apply call_trim_throws].
Qed.

(** C3, as stated, fails: the sanitizer keeps [turnstileToken] as it came,
    white space included, and a payload whose [name] is a number yields no
    submission at all. *)
Lemma sanitizePayload_keeps_token_untrimmed :
  (exists p, sanitizePayload token_with_spaces = Ok p
             /\ turnstileToken p = JString (js " tok ")
             /\ ~ trimmed_value (turnstileToken p))
  /\ sanitizePayload (JObject [(js "name", number_5)]) = Throw TypeError
  /\ ~ sanitizer_trims_token_too.
Proof.
  assert (H1 : exists p, sanitizePayload token_with_spaces = Ok p
             /\ turnstileToken p = JString (js " tok ")
             /\ ~ trimmed_value (turnstileToken p)).
  { eexists. split; [reflexivity|]. split; [reflexivity|].
    simpl. intros (s & [= <-] & Hs & _).
    specialize (Hs 32%N (js "tok ") eq_refl). discriminate. }
  split; [exact H1|]. split; [reflexivity|].
  intro Hclaim. destruct H1 as (p & Hp & _ & Hnot).
  destruct (Hclaim token_with_spaces) as (q & Hq & _ & _ & _ & _ & _ & Htok).
  rewrite Hp in Hq. injection Hq as <-. exact (Hnot Htok).
Qed.

(** C3, amended.  A payload that is not [null] and whose [name], [email],
    [phone], [deadline] and [message] are each a string, [null] or absent
    yields a submission: those five fields are the input strings trimmed
    (empty when [null] or absent), hence free of white space at both ends;
    [subject], [budget] and [turnstileToken] are the input values as they
    came, of any JSON type and untrimmed, or the defaults when [null] or
    absent. *)
Theorem sanitizePayload_result (raw : JsValue) :
  nullish raw = false ->
  (forall k, In k trimmed_keys -> string_or_nullish (property raw k) = true) ->
  exists p,
    sanitizePayload raw = Ok p
    /\ name p = trim (text_of (property raw (js "name")))
    /\ email p = trim (text_of (property raw (js "email")))
    /\ phone p = trim (text_of (property raw (js "phone")))
    /\ deadline p = trim (text_of (property raw (js "deadline")))
    /\ message p = trim (text_of (property raw (js "message")))
    /\ trimmed (name p) /\ trimmed (email p) /\ trimmed (phone p)
    /\ trimmed (deadline p) /\ trimmed (message p)
    /\ subject p = property raw (js "subject") ?? JString (js "お問い合わせ")
    /\ budget p = property raw (js "budget") ?? JString (js "")
    /\ turnstileToken p = property raw (js "turnstileToken") ?? JString (js "").
Proof.
  intros Hraw Hkeys. unfold sanitizePayload.
  rewrite !get_property by exact Hraw. simpl bindR.
  rewrite !call_trim_text by (apply Hkeys; cbv [trimmed_keys In]; auto 6).
  simpl bindR. eexists. split; [reflexivity|]. simpl.
  repeat split; try reflexivity; apply trim_trimmed.
Qed.

Lemma sanitizePayload_result_witness :
  exists p,
    sanitizePayload sample_payload = Ok p
    /\ name p = js "Taro"
    /\ phone p = js ""
    /\ subject p = JString (js "お問い合わせ")
    /\ turnstileToken p = JString (js " tok ").
Proof.
  assert (Hkeys : forall k, In k trimmed_keys ->
                            string_or_nullish (property sample_payload k) = true).
  { intros k Hk. cbv [trimmed_keys In] in Hk.
    repeat (destruct Hk as [<-|Hk]; [reflexivity|]). contradiction. }
  destruct (sanitizePayload_result sample_payload eq_refl Hkeys)
    as (p & Hp & Hn & _ & Hph & _ & _ & _ & _ & _ & _ & _ & Hs & _ & Ht).
  exists p. repeat split; assumption.
Defined.

(** ** Routing *)

Section Routing.

Variable Number_toString : spec_float -> jsstring.

Lemma fetch_options request env net :
  method request = js "OPTIONS" ->
  worker.fetch Number_toString request env net =
  (Ok (buildCorsResponse 204
         (resolveAllowedOrigin (headers_get request (js "Origin"))
            (ALLOWED_ORIGINS env))), []).
Proof.
  intro H. unfold worker.fetch. rewrite H, eqb_refl. reflexivity.
Qed.

Lemma fetch_not_found request env net :
  method request <> js "OPTIONS" ->
  pathname request <> js "/api/contact" ->
  worker.fetch Number_toString request env net =
  (Ok (respond Number_toString request env 404%N (failure (js "Not found")) []), []).
Proof.
  intros Hm Hp. unfold worker.fetch, respond.
  apply eqb_neq in Hm, Hp. rewrite Hm, Hp. reflexivity.
Qed.

Lemma fetch_method_not_allowed request env net :
  method request <> js "OPTIONS" ->
  pathname request = js "/api/contact" ->
  method request <> js "POST" ->
  worker.fetch Number_toString request env net =
  (Ok (respond Number_toString request env 405%N (failure (js "Method not allowed"))
         [(js "Allow", js "POST, OPTIONS")]), []).
Proof.
  intros Hm Hp Hpost. unfold worker.fetch, respond.
  apply eqb_neq in Hm, Hpost. rewrite Hm, Hp, Hpost, eqb_refl. reflexivity.
Qed.

Lemma post_is_not_options : eqb (js "POST") (js "OPTIONS") = false.
Proof. reflexivity. Qed.

Lemma validatePayload_message_nonempty p m :
  validatePayload p = Some m -> nonempty m = true.
Proof.
  unfold validatePayload.
  repeat match goal with
         | |- context [if ?b then _ else _] => destruct b
         end; intros [= <-]; vm_compute; reflexivity.
Qed.

(** A [POST] to the contact path whose body is not JSON, or on which the
    sanitizer throws, is answered with 400. *)
Lemma fetch_invalid_payload request env net :
  method request = js "POST" ->
  pathname request = js "/api/contact" ->
  (json request = None
   \/ exists raw e, json request = Some raw /\ sanitizePayload raw = Throw e) ->
  worker.fetch Number_toString request env net =
  (Ok (respond Number_toString request env 400%N (failure (js "Invalid JSON payload")) []), []).
Proof.
  intros Hm Hp Hbad. unfold worker.fetch, respond.
  rewrite Hm, Hp, post_is_not_options, !eqb_refl.
  cbv [negb bind try_catch request_json lift ret]. cbv beta iota.
  destruct Hbad as [-> | (raw & e & -> & ->)]; reflexivity.
Qed.

(** A sanitized payload that breaks a rule is answered with 422 and the
    rule's message. *)
Lemma fetch_validation_error request env net raw p m :
  method request = js "POST" ->
  pathname request = js "/api/contact" ->
  json request = Some raw ->
  sanitizePayload raw = Ok p ->
  validatePayload p = Some m ->
  worker.fetch Number_toString request env net =
  (Ok (respond Number_toString request env 422%N (failure m) []), []).
Proof.
  intros Hm Hp Hj Hs Hv. unfold worker.fetch, respond.
  rewrite Hm, Hp, post_is_not_options, !eqb_refl.
  cbv [negb bind try_catch request_json lift ret]. cbv beta iota.
  rewrite Hj. cbv beta iota. rewrite Hs. cbv beta iota zeta.
  rewrite Hv. cbv [absent]. rewrite (validatePayload_message_nonempty _ Hv).
  reflexivity.
Qed.

Lemma fetch_valid_submission request env net raw p :
  method request = js "POST" ->
  pathname request = js "/api/contact" ->
  json request = Some raw ->
  sanitizePayload raw = Ok p ->
  validatePayload p = None ->
  worker.fetch Number_toString request env net =
  verify_and_send Number_toString request env p net.
Proof.
  intros Hm Hp Hj Hs Hv. unfold worker.fetch, verify_and_send, respond.
  rewrite Hm, Hp, post_is_not_options, !eqb_refl.
  cbv [negb bind try_catch request_json lift ret]. cbv beta iota.
  rewrite Hj. cbv beta iota. rewrite Hs. cbv beta iota zeta.
  rewrite Hv. cbv [absent negb]. cbv beta iota.
  destruct (verifyTurnstile _ _ _ _ net) as [[[|]|e] t]; cbv beta iota.
  - destruct (sendResendEmail _ p env net) as [[u|e] t'];
      cbv [console]; cbv beta iota; rewrite ?app_nil_r; reflexivity.
  - rewrite ?app_nil_r. reflexivity.
  - reflexivity.
Qed.

End Routing.

Lemma sanitizePayload_throws raw k v :
  In k trimmed_keys -> get raw k = Ok v -> string_or_nullish v = false ->
  sanitizePayload raw = Throw TypeError.
Proof.
  intros Hk Hget Hv. apply get_ok_property in Hget as [Hraw ->].
  unfold sanitizePayload. rewrite !get_property by exact Hraw. simpl bindR.
  cbv [trimmed_keys In] in Hk.
  destruct (call_trim_cases (property raw (js "name"))) as [En|En];
    [|now rewrite En].
  destruct (call_trim_cases (property raw (js "email"))) as [Ee|Ee];
    [|now rewrite En, Ee].
  destruct (call_trim_cases (property raw (js "phone"))) as [Ep|Ep];
    [|now rewrite En, Ee, Ep].
  destruct (call_trim_cases (property raw (js "deadline"))) as [Ed|Ed];
    [|now rewrite En, Ee, Ep, Ed].
  destruct (call_trim_cases (property raw (js "message"))) as [Em|Em];
    [|now rewrite En, Ee, Ep, Ed, Em].
  exfalso.
  destruct Hk as [<-|[<-|[<-|[<-|[<-|[]]]]]];
    apply call_trim_throws in Hv; congruence.
Qed.

(** C9.  A [POST] to the contact path whose body is valid JSON, with a
    number, a boolean, an array or an object under [name], [email], [phone],
    [deadline] or [message], is answered with 400 and the invalid-payload
    message, without any outbound call: [trim] raises inside the block that
    also catches a failed JSON parse, so the validator and its 422 are never
    reached. *)
Theorem non_string_field_is_invalid_payload
  (Number_toString : spec_float -> jsstring) (request : Request) (env : Env)
  (net : Network) (raw : JsValue) (k : jsstring) (v : JsValue) :
  method request = js "POST" ->
  pathname request = js "/api/contact" ->
  json request = Some raw ->
  In k trimmed_keys ->
  get raw k = Ok v ->
  string_or_nullish v = false ->
  exists response,
    worker.fetch Number_toString request env net = (Ok response, [])
    /\ status response = 400%N
    /\ body response = Some (failure_text (js "Invalid JSON payload"))
    /\ sanitizePayload raw = Throw TypeError.
Proof.
  intros Hm Hp Hj Hk Hget Hv.
  pose proof (sanitizePayload_throws _ Hk Hget Hv) as Hs.
  eexists. split.
  - apply fetch_invalid_payload; auto. right. eauto.
  - auto.
Qed.

Lemma non_string_field_is_invalid_payload_witness :
  exists response,
    worker.fetch digits_unknown post_with_numeric_name sample_env
      friendly_network = (Ok response, [])
    /\ status response = 400%N.
Proof.
  destruct (@non_string_field_is_invalid_payload digits_unknown
              post_with_numeric_name sample_env friendly_network
              (JObject [(js "name", number_5)]) (js "name") number_5
              eq_refl eq_refl eq_refl (or_introl eq_refl) eq_refl eq_refl)
    as (response & Hrun & Hstatus & _).
  exists response. split; assumption.
Defined.

(** C10.  When the method is not [OPTIONS] and the path is not the contact
    path, the answer is 404 whatever the method: the path is tested before
    the method, so a [GET] elsewhere is a 404 and not a 405.  No outbound
    call is made. *)
Theorem other_path_is_not_found
  (Number_toString : spec_float -> jsstring) (request : Request) (env : Env)
  (net : Network) :
  method request <> js "OPTIONS" ->
  pathname request <> js "/api/contact" ->
  exists response,
    worker.fetch Number_toString request env net = (Ok response, [])
    /\ status response = 404%N
    /\ body response = Some (failure_text (js "Not found")).
Proof.
  intros Hm Hp. eexists. split.
  - now apply fetch_not_found.
  - auto.
Qed.

Lemma other_path_is_not_found_witness :
  exists response,
    worker.fetch digits_unknown get_elsewhere sample_env friendly_network
    = (Ok response, [])
    /\ status response = 404%N.
Proof.
  assert (Hm : method get_elsewhere <> js "OPTIONS")
    by (apply eqb_neq; reflexivity).
  assert (Hp : pathname get_elsewhere <> js "/api/contact")
    by (apply eqb_neq; reflexivity).
  destruct (@other_path_is_not_found digits_unknown get_elsewhere sample_env
              friendly_network Hm Hp) as (response & Hrun & Hstatus & _).
  exists response. split; assumption.
Defined.

Example get_on_contact_path_is_405 :
  fst (worker.fetch digits_unknown
         {| method := js "GET"; pathname := js "/api/contact";
            headers_get := no_headers; json := None |}
         sample_env friendly_network)
  = Ok (buildJsonResponse digits_unknown 405
          (failure (js "Method not allowed")) None
          [(js "Allow", js "POST, OPTIONS")]).
Proof. reflexivity. Qed.

(** ** CORS *)

Lemma includes_In l x : includes l x = true <-> In x l.
Proof.
  unfold includes. rewrite existsb_exists. split.
  - intros (y & Hy & Heq). apply eqb_eq in Heq. now subst.
  - intro H. exists x. split; [assumption | apply eqb_refl].
Qed.

Lemma includes_not_In l x : includes l x = false <-> ~ In x l.
Proof.
  rewrite <- includes_In. destruct (includes l x); split; congruence.
Qed.

Lemma allow_list_nonempty c o : In o (allow_list c) -> o <> [].
Proof.
  unfold allow_list. intro H. apply filter_In in H as [_ H].
  now apply nonempty_true.
Qed.

Lemma allow_list_of_empty : allow_list [] = [].
Proof. reflexivity. Qed.

Lemma resolve_listed o c :
  o <> [] ->
  In (js "*") (allow_list c) \/ In o (allow_list c) ->
  resolveAllowedOrigin (Some o) (Some c) = Some o.
Proof.
  intros Ho Hin. unfold resolveAllowedOrigin. fold (allow_list c).
  assert (Hc : nonempty c = true).
  { destruct c; [|reflexivity]. rewrite allow_list_of_empty in Hin.
    destruct Hin as [[]|[]]. }
  apply nonempty_true in Ho. cbv [absent]. rewrite Ho, Hc. cbv [negb orb].
  destruct Hin as [Hin|Hin]; apply includes_In in Hin.
  - now rewrite Hin.
  - rewrite Hin. now destruct (includes (allow_list c) (js "*")).
Qed.

Lemma resolve_unlisted o c :
  ~ In (js "*") (allow_list c) -> ~ In o (allow_list c) ->
  resolveAllowedOrigin (Some o) (Some c) = None.
Proof.
  intros Hstar Ho. unfold resolveAllowedOrigin. fold (allow_list c).
  apply includes_not_In in Hstar, Ho. rewrite Hstar, Ho.
  now destruct (absent (Some o) || absent (Some c)).
Qed.

Lemma resolve_absent origin configured :
  absent origin = true \/ absent configured = true ->
  resolveAllowedOrigin origin configured = None.
Proof.
  intro H. unfold resolveAllowedOrigin.
  destruct H as [-> | ->]; [reflexivity | now rewrite orb_true_r].
Qed.

Lemma resolveAllowedOrigin_some origin configured o :
  resolveAllowedOrigin origin configured = Some o -> origin = Some o /\ o <> [].
Proof.
  unfold resolveAllowedOrigin.
  destruct origin as [o'|]; [|now destruct (absent None || absent configured)].
  cbv [absent]. destruct (nonempty o') eqn:Eo; cbv [negb orb];
    [|discriminate].
  destruct configured as [c|]; [|discriminate].
  destruct (nonempty c); [|discriminate].
  destruct (includes _ (js "*")); [|destruct (includes _ o'); [|discriminate]];
    intros [= <-]; (split; [reflexivity | now apply nonempty_true]).
Qed.

Lemma cors_headers_echo resolved o :
  resolved = Some o -> o <> [] ->
  header_value (buildCorsHeaders resolved) (js "Access-Control-Allow-Origin")
  = Some o
  /\ header_value (buildCorsHeaders resolved) (js "Vary") = Some (js "Origin").
Proof.
  intros -> Ho. unfold buildCorsHeaders. cbv [absent].
  apply nonempty_true in Ho. rewrite Ho. cbv [negb].
  split; vm_compute; reflexivity.
Qed.

Lemma cors_headers_none :
  header_value (buildCorsHeaders None) (js "Access-Control-Allow-Origin") = None
  /\ header_value (buildCorsHeaders None) (js "Vary") = None.
Proof. split; vm_compute; reflexivity. Qed.

(** The two headers, from what [resolveAllowedOrigin] returns. *)
Lemma cors_headers_of_resolution origin configured :
  (forall o, resolveAllowedOrigin origin configured = Some o ->
             allow_origin_header origin configured = Some o
             /\ vary_header origin configured = Some (js "Origin"))
  /\ (resolveAllowedOrigin origin configured = None ->
      allow_origin_header origin configured = None
      /\ vary_header origin configured = None).
Proof.
  unfold allow_origin_header, vary_header. split.
  - intros o Hr. destruct (resolveAllowedOrigin_some _ _ Hr) as [_ Ho].
    now apply cors_headers_echo.
  - intros ->. apply cors_headers_none.
Qed.

Lemma json_response_cors nts st b resolved extra k :
  extra = [] \/ extra = [(js "Allow", js "POST, OPTIONS")] ->
  k = js "Access-Control-Allow-Origin" \/ k = js "Vary" ->
  header_value (headers (buildJsonResponse nts st b resolved extra)) k
  = header_value (buildCorsHeaders resolved) k.
Proof.
  intros Hextra Hk. unfold buildJsonResponse, buildCorsHeaders.
  cbv [headers absent].
  destruct resolved as [o|]; [destruct (nonempty o)|];
    destruct Hextra as [-> | ->], Hk as [-> | ->]; vm_compute; reflexivity.
Qed.

(** Every answer of the handler is the preflight answer or a JSON answer,
    built with the origin resolved from the request. *)
Lemma fetch_response_shape nts request env net response t :
  worker.fetch nts request env net = (Ok response, t) ->
  let allowed :=
    resolveAllowedOrigin (headers_get request (js "Origin"))
      (ALLOWED_ORIGINS env) in
  response = buildCorsResponse 204 allowed
  \/ exists st b extra,
       response = buildJsonResponse nts st b allowed extra
       /\ (extra = [] \/ extra = [(js "Allow", js "POST, OPTIONS")]).
Proof.
  intros Hrun allowed.
  destruct (eqb (method request) (js "OPTIONS")) eqn:Eo.
  { apply eqb_eq in Eo. rewrite (fetch_options nts request env net Eo) in Hrun.
    injection Hrun as <- _. now left. }
  apply eqb_neq in Eo. right.
  destruct (eqb (pathname request) (js "/api/contact")) eqn:Ep.
  2:{ apply eqb_neq in Ep.
      rewrite (fetch_not_found nts request env net Eo Ep) in Hrun.
      injection Hrun as <- _. unfold respond. eauto 6. }
  apply eqb_eq in Ep.
  destruct (eqb (method request) (js "POST")) eqn:Em.
  2:{ apply eqb_neq in Em.
      rewrite (fetch_method_not_allowed nts request env net Eo Ep Em) in Hrun.
      injection Hrun as <- _. unfold respond. eauto 6. }
  apply eqb_eq in Em.
  destruct (json request) as [raw|] eqn:Ej.
  2:{ rewrite (@fetch_invalid_payload nts request env net Em Ep) in Hrun
        by now left.
      injection Hrun as <- _. unfold respond. eauto 6. }
  destruct (sanitizePayload raw) as [p|e] eqn:Es.
  2:{ rewrite (@fetch_invalid_payload nts request env net Em Ep) in Hrun
        by (right; eauto).
      injection Hrun as <- _. unfold respond. eauto 6. }
  destruct (validatePayload p) as [m|] eqn:Ev.
  { rewrite (@fetch_validation_error nts request env net raw p m Em Ep Ej Es Ev)
      in Hrun.
    injection Hrun as <- _. unfold respond. eauto 6. }
  rewrite (@fetch_valid_submission nts request env net raw p Em Ep Ej Es Ev)
    in Hrun.
  unfold verify_and_send, respond in Hrun.
  destruct (verifyTurnstile _ _ _ _ net) as [[[|]|e] tv].
  - destruct (sendResendEmail _ p env net) as [[u|e] ts];
      injection Hrun as <- _; eauto 6.
  - injection Hrun as <- _. eauto 6.
  - discriminate.
Qed.

(** C5.  The [Access-Control-Allow-Origin] header of a response echoes the
    request's [Origin] when the allow-list holds the wildcard, and otherwise
    only when the allow-list holds that very string; any other origin, an
    [Origin] header that is missing or empty, and a missing or empty
    configuration give no such header.  [Vary: Origin] is there exactly when
    an origin is echoed.  Every response the handler returns carries the two
    headers so computed from the request's [Origin] and the configured list. *)
Theorem cors_resolution :
  (forall origin configured : option jsstring,
     (forall o c, origin = Some o -> o <> [] -> configured = Some c ->
                  In (js "*") (allow_list c) ->
                  allow_origin_header origin configured = Some o)
     /\ (forall o c, origin = Some o -> configured = Some c ->
                     ~ In (js "*") (allow_list c) ->
                     (In o (allow_list c) ->
                      allow_origin_header origin configured = Some o)
                     /\ (~ In o (allow_list c) ->
                         allow_origin_header origin configured = None))
     /\ (absent origin = true -> allow_origin_header origin configured = None)
     /\ (absent configured = true ->
         allow_origin_header origin configured = None)
     /\ (vary_header origin configured = Some (js "Origin")
         <-> exists o, allow_origin_header origin configured = Some o)
     /\ (vary_header origin configured = None
         <-> allow_origin_header origin configured = None))
  /\ (forall nts request env net response t,
        worker.fetch nts request env net = (Ok response, t) ->
        header_value (headers response) (js "Access-Control-Allow-Origin")
        = allow_origin_header (headers_get request (js "Origin"))
            (ALLOWED_ORIGINS env)
        /\ header_value (headers response) (js "Vary")
           = vary_header (headers_get request (js "Origin"))
               (ALLOWED_ORIGINS env)).
Proof.
  split.
  - intros origin configured.
    destruct (cors_headers_of_resolution origin configured) as [Hecho Hnone].
    split; [|split; [|split; [|split; [|split]]]].
    + intros o c -> Ho -> Hstar. apply Hecho. apply resolve_listed; auto.
    + intros o c -> -> Hstar. split.
      * intro Hin. apply Hecho. apply resolve_listed; [|now right].
        eapply allow_list_nonempty. eassumption.
      * intro Hout. apply Hnone. now apply resolve_unlisted.
    + intro Habs. apply Hnone. apply resolve_absent. now left.
    + intro Habs. apply Hnone. apply resolve_absent. now right.
    + destruct (resolveAllowedOrigin origin configured) as [o|] eqn:Er.
      * destruct (Hecho o eq_refl) as [Ha Hv]. split; eauto.
      * destruct (Hnone eq_refl) as [Ha Hv]. rewrite Ha, Hv. split.
        -- discriminate.
        -- intros (o & Ho). discriminate.
    + destruct (resolveAllowedOrigin origin configured) as [o|] eqn:Er.
      * destruct (Hecho o eq_refl) as [Ha Hv]. rewrite Ha, Hv.
        split; discriminate.
      * destruct (Hnone eq_refl) as [Ha Hv]. rewrite Ha, Hv. tauto.
  - intros nts request env net response t Hrun.
    unfold allow_origin_header, vary_header.
    destruct (fetch_response_shape _ _ _ _ Hrun)
      as [-> | (st & b & extra & -> & Hextra)].
    + split; reflexivity.
    + split; apply json_response_cors; auto.
Qed.

Example cors_listed_origin_is_echoed :
  allow_origin_header (Some (js "https://b.com"))
    (Some (js "https://a.com,https://b.com")) = Some (js "https://b.com").
Proof. reflexivity. Qed.

Example cors_unlisted_origin_gets_no_header :
  allow_origin_header (Some (js "https://c.com"))
    (Some (js "https://a.com,https://b.com")) = None.
Proof. reflexivity. Qed.

Example cors_wildcard_echoes_any_origin :
  allow_origin_header (Some (js "https://c.com")) (Some (js "*"))
  = Some (js "https://c.com").
Proof. reflexivity. Qed.

Example cors_empty_origin_counts_as_missing :
  allow_origin_header (Some (js "")) (Some (js "*")) = None.
Proof. reflexivity. Qed.

(** ** The verifier *)

Section Verifier.

Variable Number_toString : spec_float -> jsstring.

(** The runs of [verifyTurnstile] once the secret is configured. *)
Lemma verifyTurnstile_cases token secret ip net :
  secret <> [] ->
  verifyTurnstile Number_toString token secret ip net =
  match ToString Number_toString token with
  | Throw e => (Throw e, [])
  | Ok text =>
      let rq := siteverify_request text secret ip in
      match net rq with
      | Rejected e => (Throw e, [Fetched rq])
      | Responded r =>
          if resp_ok r then
            match resp_json r with
            | None => (Throw SyntaxError, [Fetched rq])
            | Some body =>
                match get body (js "success") with
                | Throw e => (Throw e, [Fetched rq])
                | Ok v => (Ok (truthy v), [Fetched rq])
                end
            end
          else
            (Ok false,
             [Fetched rq;
              Console (js "error")
                [LogText (js "Turnstile verification failed with status");
                 LogNumber (resp_status r)]])
      end
  end.
Proof.
  intro Hs. apply nonempty_true in Hs.
  unfold verifyTurnstile, siteverify_request. rewrite Hs.
  cbv [negb bind lift fetch ret console response_json]. cbv beta iota.
  destruct (ToString Number_toString token) as [text|e]; [|reflexivity].
  cbv beta iota zeta.
  match goal with |- context [net ?rq] => destruct (net rq) as [e|r] end;
    [reflexivity|].
  cbv beta iota.
  destruct (resp_ok r); cbv beta iota; [|reflexivity].
  destruct (resp_json r) as [body|]; [|reflexivity].
  destruct (get body (js "success")); reflexivity.
Qed.

Lemma verifyTurnstile_unconfigured token ip net :
  verifyTurnstile Number_toString token [] ip net
  = (Throw (Error (js "TURNSTILE_SECRET is not configured")), []).
Proof. reflexivity. Qed.

(** The verifier calls the verification endpoint and nothing else. *)
Lemma verifyTurnstile_calls token secret ip net outcome t rq :
  verifyTurnstile Number_toString token secret ip net = (outcome, t) ->
  In rq (fetched t) ->
  exists text,
    ToString Number_toString token = Ok text
    /\ rq = siteverify_request text secret ip
    /\ fetched t = [rq].
Proof.
  destruct secret as [|c secret].
  { rewrite verifyTurnstile_unconfigured. intros [= <- <-] []. }
  rewrite verifyTurnstile_cases by discriminate.
  destruct (ToString Number_toString token) as [text|e];
    [|intros [= <- <-] []].
  cbv zeta.
  destruct (net _) as [e|r].
  { intros [= <- <-] [<-|[]]. eauto. }
  destruct (resp_ok r).
  - destruct (resp_json r) as [body|]; [destruct (get body _)|];
      intros [= <- <-] [<-|[]]; eauto.
  - intros [= <- <-] [<-|[]]. eauto.
Qed.

End Verifier.

(** C4, amended.  With the secret configured, the verifier is fail-closed
    on every answer it can read.  When the verification call is answered
    with a status outside 200-299 it returns [false] and does not raise.
    When the answer is a success status whose body parses as JSON to a
    value other than [null], and reading [success] from it gives a falsy
    value ([undefined] when the field is missing), it returns [false].  It
    returns [true] only for a success status whose body has a truthy
    [success].  And whenever it returns [false] for a valid submission, the
    handler answers 403 with the bot-verification-failed error. *)
Theorem bot_verification_fail_closed (Number_toString : spec_float -> jsstring) :
  (forall token secret ip net outcome t rq r,
     secret <> [] ->
     verifyTurnstile Number_toString token secret ip net = (outcome, t) ->
     In rq (fetched t) -> net rq = Responded r ->
     (resp_ok r = false -> outcome = Ok false)
     /\ (forall body v,
           resp_ok r = true -> resp_json r = Some body ->
           get body (js "success") = Ok v -> truthy v = false ->
           outcome = Ok false))
  /\ (forall token secret ip net t,
        secret <> [] ->
        verifyTurnstile Number_toString token secret ip net = (Ok true, t) ->
        exists rq r body v,
          fetched t = [rq] /\ fetch_url rq = turnstile_url
          /\ net rq = Responded r /\ resp_ok r = true
          /\ resp_json r = Some body
          /\ get body (js "success") = Ok v /\ truthy v = true)
  /\ (forall request env p net t,
        valid_submission request p ->
        verifyTurnstile Number_toString (turnstileToken p)
          (TURNSTILE_SECRET env)
          (headers_get request (js "CF-Connecting-IP")) net = (Ok false, t) ->
        exists response,
          worker.fetch Number_toString request env net = (Ok response, t)
          /\ status response = 403%N
          /\ body response = Some (failure_text (js "Bot verification failed"))).
Proof.
  split; [|split].
  - intros token secret ip net outcome t rq r Hs Hrun Hin Hnet.
    destruct (@verifyTurnstile_calls _ _ _ _ _ _ _ _ Hrun Hin)
      as (text & Htext & -> & _).
    rewrite verifyTurnstile_cases, Htext in Hrun by assumption.
    cbv zeta in Hrun. rewrite Hnet in Hrun. split.
    + intro Hok. rewrite Hok in Hrun. now injection Hrun as <- _.
    + intros body v Hok Hjson Hget Hv.
      rewrite Hok, Hjson, Hget, Hv in Hrun. now injection Hrun as <- _.
  - intros token secret ip net t Hs Hrun.
    rewrite verifyTurnstile_cases in Hrun by assumption.
    destruct (ToString Number_toString token) as [text|e]; [|discriminate].
    cbv zeta in Hrun.
    destruct (net (siteverify_request text secret ip)) as [e|r] eqn:Hnet;
      [discriminate|].
    destruct (resp_ok r) eqn:Hok; [|discriminate].
    destruct (resp_json r) as [body|] eqn:Hjson; [|discriminate].
    destruct (get body (js "success")) as [v|e] eqn:Hget; [|discriminate].
    injection Hrun as Hv <-.
    exists (siteverify_request text secret ip), r, body, v.
    repeat split; assumption.
  - intros request env p net t (Hm & Hp & (raw & Hj & Hsan) & Hv) Hrun.
    rewrite (@fetch_valid_submission Number_toString request env net raw p)
      by assumption.
    unfold verify_and_send. rewrite Hrun.
    eexists. split; [reflexivity|]. split; reflexivity.
Qed.

Lemma test_submission_is_valid : valid_submission test_request test_submission.
Proof.
  unfold valid_submission. split; [reflexivity|]. split; [reflexivity|].
  split; [exists test_payload; split; vm_compute; reflexivity|].
  vm_compute. reflexivity.
Qed.

Lemma bot_verification_fail_closed_witness :
  fst (verifyTurnstile digits_unknown (turnstileToken test_submission)
         (TURNSTILE_SECRET test_env)
         (headers_get test_request (js "CF-Connecting-IP"))
         (stub_network turnstile_down resend_accepts)) = Ok false
  /\ fst (verifyTurnstile digits_unknown (turnstileToken test_submission)
            (TURNSTILE_SECRET test_env)
            (headers_get test_request (js "CF-Connecting-IP"))
            (stub_network turnstile_no resend_accepts)) = Ok false
  /\ exists response t,
       worker.fetch digits_unknown test_request test_env
         (stub_network turnstile_no resend_accepts) = (Ok response, t)
       /\ status response = 403%N.
Proof.
  destruct (bot_verification_fail_closed digits_unknown)
    as (Hfalse & _ & Hforbidden).
  pose (rq := siteverify_request (js "1x0000000000000000000000000000000AA")
                (js "test-secret") (Some (js "127.0.0.1"))).
  assert (Hsecret : TURNSTILE_SECRET test_env <> []) by discriminate.
  assert (Hno : fst (verifyTurnstile digits_unknown
                       (turnstileToken test_submission)
                       (TURNSTILE_SECRET test_env)
                       (headers_get test_request (js "CF-Connecting-IP"))
                       (stub_network turnstile_no resend_accepts)) = Ok false).
  { refine (proj2 (Hfalse _ _ _ (stub_network turnstile_no resend_accepts)
                     _ _ rq turnstile_no Hsecret
                     (surjective_pairing _) _ _)
              (JObject [(js "success", JBool false)]) (JBool false)
              _ _ _ _);
      try (vm_compute; reflexivity).
    vm_compute. left. reflexivity. }
  split; [|split].
  - refine (proj1 (Hfalse _ _ _ (stub_network turnstile_down resend_accepts)
                     _ _ rq turnstile_down Hsecret
                     (surjective_pairing _) _ _) _);
      try (vm_compute; reflexivity).
    vm_compute. left. reflexivity.
  - exact Hno.
  - destruct (Hforbidden test_request test_env test_submission
                (stub_network turnstile_no resend_accepts)
                (snd (verifyTurnstile digits_unknown
                        (turnstileToken test_submission)
                        (TURNSTILE_SECRET test_env)
                        (headers_get test_request (js "CF-Connecting-IP"))
                        (stub_network turnstile_no resend_accepts)))
                test_submission_is_valid)
      as (response & Hrun & Hstatus & _).
    + rewrite <- Hno. apply surjective_pairing.
    + eauto.
Defined.

(** C4, as stated, fails: a success answer whose body is the JSON value
    [null], or is not JSON, has no [success] field, yet the verifier gives
    no verdict: reading the field, or parsing the body, raises, the error
    escapes the handler and no 403 is built. *)
Lemma unreadable_verification_body_gives_no_verdict :
  (resp_ok turnstile_null = true
   /\ success_field turnstile_null = None
   /\ fst (verifyTurnstile digits_unknown (turnstileToken test_submission)
             (TURNSTILE_SECRET sample_env)
             (headers_get test_request (js "CF-Connecting-IP"))
             (stub_network turnstile_null resend_accepts)) = Throw TypeError
   /\ fst (worker.fetch digits_unknown test_request sample_env
             (stub_network turnstile_null resend_accepts)) = Throw TypeError)
  /\ (resp_ok turnstile_not_json = true
      /\ success_field turnstile_not_json = None
      /\ fst (verifyTurnstile digits_unknown (turnstileToken test_submission)
                (TURNSTILE_SECRET sample_env)
                (headers_get test_request (js "CF-Connecting-IP"))
                (stub_network turnstile_not_json resend_accepts))
         = Throw SyntaxError
      /\ fst (worker.fetch digits_unknown test_request sample_env
                (stub_network turnstile_not_json resend_accepts))
         = Throw SyntaxError)
  /\ ~ missing_success_is_a_false_verdict.
Proof.
  split; [repeat split; vm_compute; reflexivity|].
  split; [repeat split; vm_compute; reflexivity|].
  intro Hclaim.
  pose (net := stub_network turnstile_null resend_accepts).
  pose (run := verifyTurnstile digits_unknown (turnstileToken test_submission)
                 (TURNSTILE_SECRET sample_env)
                 (headers_get test_request (js "CF-Connecting-IP")) net).
  pose (rq := siteverify_request (js "1x0000000000000000000000000000000AA")
                (js "test-secret") (Some (js "127.0.0.1"))).
  assert (Hsecret : TURNSTILE_SECRET sample_env <> []) by discriminate.
  assert (Hin : In rq (fetched (snd run)))
    by (vm_compute; left; reflexivity).
  assert (Hnet : net rq = Responded turnstile_null)
    by (vm_compute; reflexivity).
  pose proof (Hclaim digits_unknown (turnstileToken test_submission)
                (TURNSTILE_SECRET sample_env)
                (headers_get test_request (js "CF-Connecting-IP"))
                net (fst run) (snd run) rq turnstile_null Hsecret
                (surjective_pairing run) Hin Hnet eq_refl I) as Hfalse.
  vm_compute in Hfalse. discriminate Hfalse.
Qed.

(** ** The dispatcher *)

Section Dispatcher.

Variable Number_toString : spec_float -> jsstring.

Lemma sendResendEmail_disabled p env net :
  delivery_disabled env = true ->
  sendResendEmail Number_toString p env net
  = (Ok tt,
     [Console (js "info")
        [LogText (js "Resend delivery skipped (RESEND_DISABLED=true)")]]).
Proof.
  unfold delivery_disabled, sendResendEmail. intros ->. reflexivity.
Qed.

Lemma sendResendEmail_no_recipient p env net :
  delivery_disabled env = false ->
  recipients env = [] ->
  sendResendEmail Number_toString p env net
  = (Throw (Error (js "TO_EMAIL is not configured")), []).
Proof.
  unfold delivery_disabled, recipients, sendResendEmail.
  intros -> ->. reflexivity.
Qed.

(** The runs of [sendResendEmail] when it has someone to write to. *)
Lemma sendResendEmail_cases p env net :
  delivery_disabled env = false ->
  recipients env <> [] ->
  sendResendEmail Number_toString p env net =
  match ToString Number_toString (subject p) with
  | Throw e => (Throw e, [])
  | Ok subject_text =>
      match buildTextBody Number_toString p with
      | Throw e => (Throw e, [])
      | Ok textBody =>
          match buildHtmlBody p env with
          | Throw e => (Throw e, [])
          | Ok htmlBody =>
              let rq := resend_request Number_toString p env subject_text
                          textBody htmlBody in
              match net rq with
              | Rejected e => (Throw e, [Fetched rq])
              | Responded r =>
                  if resp_ok r then (Ok tt, [Fetched rq])
                  else (Throw (resend_error r), [Fetched rq])
              end
          end
      end
  end.
Proof.
  unfold delivery_disabled, recipients, sendResendEmail, resend_request,
    resend_error.
  intros -> Hto. unfold recipients.
  destruct (filter nonempty (map trim (split 44%N (TO_EMAIL env))))
    as [|to0 tos] eqn:Eto; [congruence|].
  cbv [List.length Nat.eqb]. cbv [negb bind lift fetch ret throw].
  cbv beta iota.
  destruct (ToString Number_toString (subject p)) as [st|e]; [|reflexivity].
  cbv beta iota.
  destruct (buildTextBody Number_toString p) as [tb|e]; [|reflexivity].
  cbv beta iota.
  destruct (buildHtmlBody p env) as [hb|e]; [|reflexivity].
  cbv beta iota zeta.
  match goal with |- context [net ?rq] => destruct (net rq) as [e|r] end;
    [reflexivity|].
  cbv beta iota. destruct (resp_ok r); reflexivity.
Qed.

(** The dispatcher calls the mail endpoint and nothing else, at most once;
    what the endpoint answers decides the outcome. *)
Lemma sendResendEmail_calls p env net outcome t rq :
  sendResendEmail Number_toString p env net = (outcome, t) ->
  In rq (fetched t) ->
  fetch_url rq = resend_url
  /\ fetched t = [rq]
  /\ delivery_disabled env = false
  /\ match net rq with
     | Rejected e => outcome = Throw e
     | Responded r =>
         outcome = if resp_ok r then Ok tt else Throw (resend_error r)
     end.
Proof.
  destruct (delivery_disabled env) eqn:Ed.
  { rewrite sendResendEmail_disabled by assumption. intros [= <- <-] []. }
  destruct (recipients env) as [|to0 tos] eqn:Eto.
  { rewrite sendResendEmail_no_recipient by assumption. intros [= <- <-] []. }
  rewrite sendResendEmail_cases by (assumption || congruence).
  destruct (ToString Number_toString (subject p)) as [st|e];
    [|intros [= <- <-] []].
  destruct (buildTextBody Number_toString p) as [tb|e];
    [|intros [= <- <-] []].
  destruct (buildHtmlBody p env) as [hb|e]; [|intros [= <- <-] []].
  cbv zeta.
  destruct (net _) as [e|r] eqn:Hnet.
  { intros [= <- <-] [<-|[]]. rewrite Hnet. auto. }
  destruct (resp_ok r) eqn:Hok;
    intros [= <- <-] [<-|[]]; rewrite Hnet, Hok; auto.
Qed.

End Dispatcher.

(** ** Verification, then dispatch *)

Lemma fetched_app t1 t2 : fetched (t1 ++ t2) = fetched t1 ++ fetched t2.
Proof. unfold fetched. apply flat_map_app. Qed.

Lemma endpoints_differ : turnstile_url <> resend_url.
Proof. apply eqb_neq. vm_compute. reflexivity. Qed.

Lemma verifier_never_calls_resend nts token secret ip net outcome t :
  verifyTurnstile nts token secret ip net = (outcome, t) ->
  never_called resend_url t.
Proof.
  intros Hrun rq Hin.
  destruct (@verifyTurnstile_calls _ _ _ _ _ _ _ _ Hrun Hin)
    as (text & _ & -> & _).
  exact endpoints_differ.
Qed.

(** The answer to a valid, human-verified submission is decided by the
    dispatcher: 200 when it returns, 502 when it throws. *)
Lemma fetch_after_verification nts request env p net tv :
  valid_submission request p ->
  verifyTurnstile nts (turnstileToken p) (TURNSTILE_SECRET env)
    (headers_get request (js "CF-Connecting-IP")) net = (Ok true, tv) ->
  worker.fetch nts request env net =
  match sendResendEmail nts p env net with
  | (Ok _, ts) => (Ok (respond nts request env 200%N success []), tv ++ ts)
  | (Throw e, ts) =>
      (Ok (respond nts request env 502%N (failure msg_delivery) []),
       tv ++ ts ++ [Console (js "error")
                      [LogText (js "Resend delivery failure"); LogError e]])
  end.
Proof.
  intros (Hm & Hp & (raw & Hj & Hsan) & Hv) Hrun.
  rewrite (@fetch_valid_submission nts request env net raw p) by assumption.
  unfold verify_and_send. rewrite Hrun. reflexivity.
Qed.

(** C6.  With [RESEND_DISABLED] set to [true], the dispatcher returns
    without calling the mail endpoint, and a valid, human-verified
    submission is answered with 200 and the body [{"success":true}]; no
    request of the whole run goes to the mail endpoint. *)
Theorem disabled_delivery_skips_the_mail_call
  (Number_toString : spec_float -> jsstring) (request : Request) (env : Env)
  (p : ContactPayload) (net : Network) :
  RESEND_DISABLED env = Some (js "true") ->
  valid_submission request p ->
  human_verified Number_toString request env p net ->
  (exists ts, sendResendEmail Number_toString p env net = (Ok tt, ts)
              /\ fetched ts = [])
  /\ exists response t,
       worker.fetch Number_toString request env net = (Ok response, t)
       /\ status response = 200%N
       /\ body response = Some success_text
       /\ never_called resend_url t.
Proof.
  intros Hflag Hvalid (tv & Hverified).
  assert (Hdis : delivery_disabled env = true)
    by (unfold delivery_disabled; rewrite Hflag; apply eqb_refl).
  pose proof (sendResendEmail_disabled Number_toString p env net Hdis) as Hsend.
  split.
  - eexists. split; [exact Hsend | reflexivity].
  - rewrite (@fetch_after_verification _ _ _ _ _ _ Hvalid Hverified), Hsend.
    eexists. eexists. split; [reflexivity|].
    split; [reflexivity|]. split; [reflexivity|].
    intros rq Hin. rewrite fetched_app in Hin. cbn [fetched flat_map app] in Hin.
    rewrite app_nil_r in Hin.
    exact (@verifier_never_calls_resend _ _ _ _ _ _ _ Hverified rq Hin).
Qed.

Lemma test_submission_is_human nts env :
  TURNSTILE_SECRET env = js "test-secret" ->
  forall resend,
    human_verified nts test_request env test_submission
      (stub_network turnstile_yes resend).
Proof.
  intros Hsecret resend. unfold human_verified. rewrite Hsecret.
  eexists. vm_compute. reflexivity.
Qed.

Lemma disabled_delivery_skips_the_mail_call_witness :
  exists response t,
    worker.fetch digits_unknown test_request test_env friendly_network
    = (Ok response, t)
    /\ status response = 200%N
    /\ body response = Some success_text
    /\ never_called resend_url t.
Proof.
  exact (proj2 (@disabled_delivery_skips_the_mail_call digits_unknown
                  test_request test_env test_submission friendly_network
                  eq_refl test_submission_is_valid
                  (test_submission_is_human digits_unknown test_env eq_refl
                     resend_accepts))).
Defined.

(** C7.  When the dispatcher fails, whatever the error, a valid and
    human-verified submission is answered with 502 and one fixed body,
    [{"success":false,"error":...}] with the delivery-failure message: the
    body is the same text for every error, so neither the status nor the body
    the mail API answered with is part of it.  An answer of the mail API
    outside 200-299 is such a failure: the dispatcher throws an error made
    of that status and body. *)
Theorem delivery_failure_is_bad_gateway
  (Number_toString : spec_float -> jsstring) :
  (forall request env p net e ts,
     valid_submission request p ->
     human_verified Number_toString request env p net ->
     sendResendEmail Number_toString p env net = (Throw e, ts) ->
     exists response t,
       worker.fetch Number_toString request env net = (Ok response, t)
       /\ status response = 502%N
       /\ body response = Some (failure_text msg_delivery))
  /\ (forall p env net outcome ts rq r,
        sendResendEmail Number_toString p env net = (outcome, ts) ->
        In rq (fetched ts) -> net rq = Responded r -> resp_ok r = false ->
        outcome = Throw (resend_error r)).
Proof.
  split.
  - intros request env p net e ts Hvalid (tv & Hverified) Hsend.
    rewrite (@fetch_after_verification _ _ _ _ _ _ Hvalid Hverified), Hsend.
    eexists. eexists. split; [reflexivity|]. split; reflexivity.
  - intros p env net outcome ts rq r Hsend Hin Hnet Hok.
    destruct (@sendResendEmail_calls _ _ _ _ _ _ _ Hsend Hin)
      as (_ & _ & _ & Hout).
    rewrite Hnet, Hok in Hout. exact Hout.
Qed.

Lemma delivery_failure_is_bad_gateway_witness :
  exists response t,
    worker.fetch digits_unknown test_request sample_env
      (stub_network turnstile_yes resend_down) = (Ok response, t)
    /\ status response = 502%N
    /\ body response = Some (failure_text msg_delivery).
Proof.
  destruct (delivery_failure_is_bad_gateway digits_unknown) as [Hgateway Hthrow].
  pose (net := stub_network turnstile_yes resend_down).
  pose (run := sendResendEmail digits_unknown test_submission sample_env net).
  assert (Hin : exists rq, In rq (fetched (snd run))
                           /\ net rq = Responded resend_down).
  { vm_compute. eexists. split; [left|]; reflexivity. }
  destruct Hin as (rq & Hin & Hnet).
  apply (Hgateway test_request sample_env test_submission net
           (resend_error resend_down) (snd run) test_submission_is_valid
           (test_submission_is_human digits_unknown sample_env eq_refl
              resend_down)).
  rewrite <- (Hthrow test_submission sample_env net (fst run) (snd run) rq
                resend_down (surjective_pairing run) Hin Hnet eq_refl).
  apply surjective_pairing.
Defined.

(** C2, as stated, fails: with an empty recipient list the dispatcher's
    error is caught by the handler, which answers 502 with the
    delivery-failure body; nothing escapes. *)
Lemma empty_recipients_are_answered_502 :
  recipients env_without_recipients = []
  /\ (exists response t,
        worker.fetch digits_unknown test_request env_without_recipients
          friendly_network = (Ok response, t)
        /\ status response = 502%N
        /\ body response = Some (failure_text msg_delivery))
  /\ ~ empty_recipients_are_fatal.
Proof.
  split; [vm_compute; reflexivity|]. split.
  - eexists. eexists. split; [vm_compute; reflexivity|].
    split; vm_compute; reflexivity.
  - intro Hfatal.
    destruct (Hfatal digits_unknown test_request env_without_recipients
                test_submission friendly_network test_submission_is_valid
                (test_submission_is_human digits_unknown
                   env_without_recipients eq_refl resend_accepts))
      as [e He].
    + vm_compute. reflexivity.
    + vm_compute in He. discriminate.
Qed.

(** C2, amended.  When delivery is not disabled and the recipient string
    splits into an empty list, the dispatcher fails with the error
    [TO_EMAIL is not configured] before any call to the mail API, and the
    handler catches it like any other dispatch failure: a valid,
    human-verified submission is answered with 502 and the delivery-failure
    body. *)
Theorem empty_recipients_fail_as_delivery_failure
  (Number_toString : spec_float -> jsstring) (request : Request) (env : Env)
  (p : ContactPayload) (net : Network) :
  delivery_disabled env = false ->
  recipients env = [] ->
  valid_submission request p ->
  human_verified Number_toString request env p net ->
  sendResendEmail Number_toString p env net
  = (Throw (Error (js "TO_EMAIL is not configured")), [])
  /\ exists response t,
       worker.fetch Number_toString request env net = (Ok response, t)
       /\ status response = 502%N
       /\ body response = Some (failure_text msg_delivery)
       /\ never_called resend_url t.
Proof.
  intros Hdis Hto Hvalid (tv & Hverified).
  pose proof (sendResendEmail_no_recipient Number_toString p env net Hdis Hto)
    as Hsend.
  split; [exact Hsend|].
  rewrite (@fetch_after_verification _ _ _ _ _ _ Hvalid Hverified), Hsend.
  eexists. eexists. split; [reflexivity|].
  split; [reflexivity|]. split; [reflexivity|].
  intros rq Hin. rewrite fetched_app in Hin. cbn [fetched flat_map app] in Hin.
  rewrite app_nil_r in Hin.
  exact (@verifier_never_calls_resend _ _ _ _ _ _ _ Hverified rq Hin).
Qed.

Lemma empty_recipients_fail_as_delivery_failure_witness :
  sendResendEmail digits_unknown test_submission env_without_recipients
    friendly_network
  = (Throw (Error (js "TO_EMAIL is not configured")), [])
  /\ exists response t,
       worker.fetch digits_unknown test_request env_without_recipients
         friendly_network = (Ok response, t)
       /\ status response = 502%N
       /\ body response = Some (failure_text msg_delivery)
       /\ never_called resend_url t.
Proof.
  apply (@empty_recipients_fail_as_delivery_failure digits_unknown
           test_request env_without_recipients test_submission
           friendly_network).
  - reflexivity.
  - vm_compute. reflexivity.
  - exact test_submission_is_valid.
  - exact (test_submission_is_human digits_unknown env_without_recipients
             eq_refl resend_accepts).
Defined.

(** ** The mail bodies *)

Lemma occurs_in_refl s : occurs_in s s.
Proof. exists [], []. now rewrite app_nil_r. Qed.

Lemma occurs_in_nil s : occurs_in [] s.
Proof. now exists [], s. Qed.

Lemma occurs_in_app_r t a s : occurs_in t s -> occurs_in t (a ++ s).
Proof.
  intros (pre & post & ->). exists (a ++ pre), post. now rewrite app_assoc.
Qed.

Lemma occurs_in_app_l t s b : occurs_in t s -> occurs_in t (s ++ b).
Proof.
  intros (pre & post & ->). exists pre, (post ++ b).
  now rewrite <- !app_assoc.
Qed.

Lemma occurs_in_trans t u s : occurs_in t u -> occurs_in u s -> occurs_in t s.
Proof.
  intros (p1 & q1 & ->) (p2 & q2 & ->). exists (p2 ++ p1), (q1 ++ q2).
  now rewrite <- !app_assoc.
Qed.

Lemma occurs_in_concat x l : In x l -> occurs_in x (List.concat l).
Proof.
  induction l as [|y l IH]; simpl; [tauto|].
  intros [->|H].
  - apply occurs_in_app_l, occurs_in_refl.
  - apply occurs_in_app_r. now apply IH.
Qed.

Lemma occurs_in_join sep x l : In x l -> occurs_in x (join sep l).
Proof.
  induction l as [|y l IH]; [intros []|].
  intros [->|H]; cbn [join]; destruct l as [|z l].
  - apply occurs_in_refl.
  - apply occurs_in_app_l, occurs_in_refl.
  - destruct H.
  - apply occurs_in_app_r, occurs_in_app_r. now apply IH.
Qed.

(** [escape] replaces [&], [<] and [>], each by its entity, and copies every
    other code unit. *)
Lemma escape_string_units s : escape_string s = flat_map escape_unit s.
Proof.
  unfold escape_string, replace_class_g. apply flat_map_ext. intro c.
  unfold amp_lt_gt, escape_unit.
  destruct (N.eqb_spec c 38) as [->|H38]; [reflexivity|].
  destruct (N.eqb_spec c 60) as [->|H60]; [reflexivity|].
  destruct (N.eqb_spec c 62) as [->|H62]; reflexivity.
Qed.

Lemma escape_string_app a b :
  escape_string (a ++ b) = escape_string a ++ escape_string b.
Proof. unfold escape_string, replace_class_g. apply flat_map_app. Qed.

Lemma escape_or_else f d :
  occurs_in (escape_string f) (escape_string (or_else f d)).
Proof.
  destruct f as [|c f]; [apply occurs_in_nil | apply occurs_in_refl].
Qed.

Lemma occurs_in_or_else f d : occurs_in f (or_else f d).
Proof.
  destruct f as [|c f]; [apply occurs_in_nil | apply occurs_in_refl].
Qed.

Lemma or_value_string b d :
  or_value (JString b) (JString d) = JString (or_else b d).
Proof. unfold or_value, or_else. cbn [truthy]. now destruct (nonempty b). Qed.

Lemma row_string label value :
  row label (JString value) = Ok (row_text label value).
Proof. reflexivity. Qed.

(** Find a part of a concatenation, left to right. *)
Ltac find_part :=
  first [ apply occurs_in_refl
        | apply occurs_in_app_l, occurs_in_refl
        | apply occurs_in_app_r; find_part ].

Lemma row_text_shows label value :
  occurs_in (escape_string value) (row_text label value).
Proof. unfold row_text. find_part. Qed.

(** Pick an element of a list that is written out. *)
Ltac pick_element :=
  cbv beta iota delta [In];
  repeat first [ left; reflexivity | right ].

(** The HTML body of a submission whose [subject] and [budget] are
    strings: a concatenation with the six rows and the escaped message
    among its parts. *)
Lemma buildHtmlBody_parts p env subject_text budget_text :
  subject p = JString subject_text ->
  budget p = JString budget_text ->
  exists parts,
    buildHtmlBody p env = Ok (List.concat parts)
    /\ In (row_text (js "お名前") (name p)) parts
    /\ In (row_text (js "メール") (email p)) parts
    /\ In (row_text (js "電話") (or_else (phone p) (js "-"))) parts
    /\ In (row_text (js "件名") subject_text) parts
    /\ In (row_text (js "ご予算") (or_else budget_text (js "-"))) parts
    /\ In (row_text (js "希望納期") (or_else (deadline p) (js "-"))) parts
    /\ In (escape_string (message p)) parts.
Proof.
  intros Hs Hb. unfold buildHtmlBody.
  rewrite Hs, Hb, or_value_string, !row_string.
  cbv beta iota delta [bindR escape].
  eexists. split; [reflexivity|].
  repeat split; pick_element.
Qed.

(** The text body of such a submission: its lines. *)
Lemma buildTextBody_lines nts p subject_text budget_text :
  subject p = JString subject_text ->
  budget p = JString budget_text ->
  buildTextBody nts p
  = Ok (join nl (text_lines p subject_text budget_text)).
Proof.
  intros Hs Hb. unfold buildTextBody. rewrite Hs, Hb, or_value_string.
  reflexivity.
Qed.

Lemma shown_in_html p env subject_text budget_text html f :
  subject p = JString subject_text ->
  budget p = JString budget_text ->
  buildHtmlBody p env = Ok html ->
  In f (shown_fields p subject_text budget_text) ->
  occurs_in (escape_string f) html.
Proof.
  intros Hs Hb Hhtml Hf.
  destruct (buildHtmlBody_parts p env Hs Hb)
    as (parts & Hparts & Hn & He & Hp & Hsj & Hbu & Hd & Hm).
  rewrite Hparts in Hhtml. injection Hhtml as <-.
  assert (Hrow : forall label v,
             In (row_text label v) parts ->
             occurs_in (escape_string v) (List.concat parts)).
  { intros label v Hin.
    exact (occurs_in_trans (row_text_shows label v) (occurs_in_concat _ _ Hin)). }
  cbv [shown_fields In] in Hf.
  destruct Hf as [<-|[<-|[<-|[<-|[<-|[<-|[<-|[]]]]]]]].
  - exact (Hrow _ _ Hn).
  - exact (Hrow _ _ He).
  - exact (occurs_in_trans (escape_or_else _ _) (Hrow _ _ Hp)).
  - exact (Hrow _ _ Hsj).
  - exact (occurs_in_trans (escape_or_else _ _) (Hrow _ _ Hbu)).
  - exact (occurs_in_trans (escape_or_else _ _) (Hrow _ _ Hd)).
  - now apply occurs_in_concat.
Qed.

Lemma shown_in_text nts p subject_text budget_text text f :
  subject p = JString subject_text ->
  budget p = JString budget_text ->
  buildTextBody nts p = Ok text ->
  In f (shown_fields p subject_text budget_text) ->
  occurs_in f text.
Proof.
  intros Hs Hb Htext Hf.
  rewrite (buildTextBody_lines nts p Hs Hb) in Htext.
  assert (Heq : text = join nl (text_lines p subject_text budget_text))
    by congruence.
  rewrite Heq. clear Heq Htext.
  assert (Hline : forall label v lines,
             In (label ++ or_else v (js "-")) lines ->
             occurs_in v (join nl lines)).
  { intros label v lines Hin.
    refine (occurs_in_trans _ (occurs_in_join nl _ _ Hin)).
    apply occurs_in_app_r, occurs_in_or_else. }
  assert (Hplain : forall label v lines,
             In (label ++ v) lines -> occurs_in v (join nl lines)).
  { intros label v lines Hin.
    refine (occurs_in_trans _ (occurs_in_join nl _ _ Hin)).
    apply occurs_in_app_r, occurs_in_refl. }
  cbv [shown_fields In] in Hf.
  destruct Hf as [<-|[<-|[<-|[<-|[<-|[<-|[<-|[]]]]]]]].
  - apply (Hplain (js "Name: ")). unfold text_lines. pick_element.
  - apply (Hplain (js "Email: ")). unfold text_lines. pick_element.
  - apply (Hline (js "Phone: ")). unfold text_lines. pick_element.
  - apply (Hplain (js "Subject: ")). unfold text_lines. pick_element.
  - apply (Hline (js "Budget: ")). unfold text_lines. pick_element.
  - apply (Hline (js "Deadline: ")). unfold text_lines. pick_element.
  - apply occurs_in_join. unfold text_lines. pick_element.
Qed.

(** C8.  For a submission whose [subject] and [budget] are strings, both
    bodies are built, and each field the mail shows (name, email, phone,
    subject, budget, deadline, message) occurs in the HTML body with [&],
    [<] and [>] replaced by [&amp;], [&lt;] and [&gt;] and every other code
    unit unchanged, and occurs verbatim in the text body.  A message that
    contains [<script>] shows as [&lt;script&gt;] in the HTML body and as
    [<script>] in the text body. *)
Theorem mail_bodies_escape_html_only
  (Number_toString : spec_float -> jsstring) (p : ContactPayload) (env : Env)
  (subject_text budget_text : jsstring) :
  subject p = JString subject_text ->
  budget p = JString budget_text ->
  exists html text,
    buildHtmlBody p env = Ok html
    /\ buildTextBody Number_toString p = Ok text
    /\ (forall f, In f (shown_fields p subject_text budget_text) ->
                  occurs_in (escape_string f) html /\ occurs_in f text)
    /\ (forall s, escape_string s = flat_map escape_unit s)
    /\ (forall before after,
          message p = before ++ js "<script>" ++ after ->
          occurs_in (js "&lt;script&gt;") html
          /\ occurs_in (js "<script>") text).
Proof.
  intros Hs Hb.
  destruct (buildHtmlBody_parts p env Hs Hb) as (parts & Hhtml & _).
  pose proof (buildTextBody_lines Number_toString p Hs Hb) as Htext.
  eexists. eexists. split; [exact Hhtml|]. split; [exact Htext|].
  assert (Hshown : forall f, In f (shown_fields p subject_text budget_text) ->
                             occurs_in (escape_string f) (List.concat parts)
                             /\ occurs_in f
                                  (join nl
                                     (text_lines p subject_text budget_text))).
  { intros f Hf. split.
    - eapply shown_in_html; eassumption.
    - eapply shown_in_text; eassumption. }
  split; [exact Hshown|]. split; [exact escape_string_units|].
  intros before after Hmsg.
  assert (Hm : In (message p) (shown_fields p subject_text budget_text))
    by (cbv [shown_fields In]; tauto).
  destruct (Hshown _ Hm) as [Hin_html Hin_text]. split.
  - refine (occurs_in_trans _ Hin_html).
    rewrite Hmsg, !escape_string_app.
    apply occurs_in_app_r, occurs_in_app_l.
    change (escape_string (js "<script>")) with (js "&lt;script&gt;").
    apply occurs_in_refl.
  - refine (occurs_in_trans _ Hin_text). rewrite Hmsg.
    apply occurs_in_app_r, occurs_in_app_l, occurs_in_refl.
Qed.

Lemma mail_bodies_escape_html_only_witness :
  exists html text,
    buildHtmlBody script_submission test_env = Ok html
    /\ buildTextBody digits_unknown script_submission = Ok text
    /\ occurs_in (js "Tom &amp; Jerry") html
    /\ occurs_in (js "Tom & Jerry") text
    /\ occurs_in (js "&lt;script&gt;") html
    /\ occurs_in (js "<script>") text.
Proof.
  destruct (@mail_bodies_escape_html_only digits_unknown script_submission
              test_env (js "a<b") (js "") eq_refl eq_refl)
    as (html & text & Hhtml & Htext & Hshown & _ & Hscript).
  exists html, text. split; [exact Hhtml|]. split; [exact Htext|].
  destruct (Hshown (js "Tom & Jerry") (or_introl eq_refl)) as [Hh Ht].
  destruct (Hscript (js "hello ") (js "alert(1)</script>") eq_refl) as [Hsh Hst].
  repeat split; assumption.
Defined.

(** ** End to end *)

Example end_to_end_success :
  fst (worker.fetch digits_unknown test_request sample_env friendly_network)
  = Ok {| status := 200;
          headers := [(js "Content-Type", js "application/json");
                      (js "Access-Control-Allow-Methods", js "POST, OPTIONS");
                      (js "Access-Control-Allow-Headers", js "Content-Type");
                      (js "Access-Control-Allow-Origin", js "https://test.local");
                      (js "Vary", js "Origin")];
          body := Some success_text |}.
Proof. vm_compute. reflexivity. Qed.

Example end_to_end_two_calls :
  map fetch_url
    (fetched (snd (worker.fetch digits_unknown test_request sample_env
                     friendly_network)))
  = [turnstile_url; resend_url].
Proof. vm_compute. reflexivity. Qed.

Example end_to_end_bot_rejected :
  fst (worker.fetch digits_unknown test_request sample_env
         (stub_network turnstile_no resend_accepts))
  = Ok (respond digits_unknown test_request sample_env 403
          (failure (js "Bot verification failed")) []).
Proof. vm_compute. reflexivity. Qed.

Example end_to_end_mail_down :
  fst (worker.fetch digits_unknown test_request sample_env
         (stub_network turnstile_yes resend_down))
  = Ok (respond digits_unknown test_request sample_env 502
          (failure msg_delivery) []).
Proof. vm_compute. reflexivity. Qed.

Example missing_secret_is_uncaught :
  worker.fetch digits_unknown test_request
    {| RESEND_API_KEY := js "k"; FROM_EMAIL := js "f@example.com";
       TO_EMAIL := js "owner@example.com"; TURNSTILE_SECRET := js "";
       ALLOWED_ORIGINS := None; SITE_NAME := None; RESEND_DISABLED := None |}
    friendly_network
  = (Throw (Error (js "TURNSTILE_SECRET is not configured")), []).
Proof. vm_compute. reflexivity. Qed.

Example null_verification_body_is_uncaught :
  fst (worker.fetch digits_unknown test_request sample_env
         (stub_network {| resp_status := 200; resp_text := js "null";
                          resp_json := Some JNull |} resend_accepts))
  = Throw TypeError.
Proof. vm_compute. reflexivity. Qed.

(** A subject that is not a string passes the validator (it is truthy) and
    reaches the dispatcher, where [escape] cannot call [replace] on it: the
    mail is not sent and the answer is 502. *)
Example numeric_subject_is_answered_502 :
  fst (worker.fetch digits_unknown
         {| method := js "POST"; pathname := js "/api/contact";
            headers_get := test_headers;
            json := Some numeric_subject_payload |}
         sample_env friendly_network)
  = Ok (respond digits_unknown test_request sample_env 502
          (failure msg_delivery) []).
Proof. vm_compute. reflexivity. Qed.

(** * Part III: further properties of the handler and its stages *)

(** ** The runs of the handler, stage by stage *)

(** Every run of the handler stops at one of six stages. *)
Lemma fetch_stages nts request env net :
  (method request = js "OPTIONS"
   /\ worker.fetch nts request env net
      = (Ok (buildCorsResponse 204 (allowed_origin request env)), []))
  \/ (method request <> js "OPTIONS"
      /\ pathname request <> js "/api/contact"
      /\ worker.fetch nts request env net
         = (Ok (respond nts request env 404 (failure (js "Not found")) []), []))
  \/ (method request <> js "OPTIONS"
      /\ pathname request = js "/api/contact"
      /\ method request <> js "POST"
      /\ worker.fetch nts request env net
         = (Ok (respond nts request env 405
                  (failure (js "Method not allowed"))
                  [(js "Allow", js "POST, OPTIONS")]), []))
  \/ (method request = js "POST"
      /\ pathname request = js "/api/contact"
      /\ (json request = None
          \/ exists raw e,
               json request = Some raw /\ sanitizePayload raw = Throw e)
      /\ worker.fetch nts request env net
         = (Ok (respond nts request env 400
                  (failure (js "Invalid JSON payload")) []), []))
  \/ (exists raw p m,
        method request = js "POST"
        /\ pathname request = js "/api/contact"
        /\ json request = Some raw /\ sanitizePayload raw = Ok p
        /\ validatePayload p = Some m
        /\ worker.fetch nts request env net
           = (Ok (respond nts request env 422 (failure m) []), []))
  \/ (exists p,
        valid_submission request p
        /\ worker.fetch nts request env net
           = verify_and_send nts request env p net).
Proof.
  destruct (eqb (method request) (js "OPTIONS")) eqn:Eo.
  { apply eqb_eq in Eo. left. split; [assumption|].
    now apply fetch_options. }
  apply eqb_neq in Eo. right.
  destruct (eqb (pathname request) (js "/api/contact")) eqn:Ep.
  2:{ apply eqb_neq in Ep. left. split; [assumption|]. split; [assumption|].
      now apply fetch_not_found. }
  apply eqb_eq in Ep. right.
  destruct (eqb (method request) (js "POST")) eqn:Em.
  2:{ apply eqb_neq in Em. left. repeat (split; [assumption || reflexivity|]).
      now apply fetch_method_not_allowed. }
  apply eqb_eq in Em. right.
  destruct (json request) as [raw|] eqn:Ej.
  2:{ left. repeat (split; [assumption || reflexivity|]). split; [now left|].
      apply fetch_invalid_payload; auto. }
  destruct (sanitizePayload raw) as [p|e] eqn:Es.
  2:{ left. repeat (split; [assumption || reflexivity|]). split; [right; eauto|].
      apply fetch_invalid_payload; auto. right. eauto. }
  right.
  destruct (validatePayload p) as [m|] eqn:Ev.
  - left. exists raw, p, m. repeat (split; [assumption || reflexivity|]).
    eapply fetch_validation_error; eassumption.
  - right. exists p. split.
    + unfold valid_submission. rewrite Ej. eauto 8.
    + eapply fetch_valid_submission; eassumption.
Qed.

(** ** Routing *)

Lemma json_response_fixed_headers nts st b resolved extra :
  extra = [] \/ extra = [(js "Allow", js "POST, OPTIONS")] ->
  header_value (headers (buildJsonResponse nts st b resolved extra))
    (js "Content-Type") = Some (js "application/json")
  /\ header_value (headers (buildJsonResponse nts st b resolved extra))
       (js "Access-Control-Allow-Methods") = Some (js "POST, OPTIONS")
  /\ header_value (headers (buildJsonResponse nts st b resolved extra))
       (js "Access-Control-Allow-Headers") = Some (js "Content-Type")
  /\ header_value (headers (buildJsonResponse nts st b resolved extra))
       (js "Allow")
     = match extra with [] => None | _ => Some (js "POST, OPTIONS") end.
Proof.
  intros Hextra. unfold buildJsonResponse, buildCorsHeaders.
  cbv [headers absent].
  destruct resolved as [o|]; [destruct (nonempty o)|];
    destruct Hextra as [-> | ->]; repeat split; vm_compute; reflexivity.
Qed.

Lemma cors_response_fixed_headers st resolved :
  header_value (headers (buildCorsResponse st resolved)) (js "Content-Type")
  = None
  /\ header_value (headers (buildCorsResponse st resolved))
       (js "Access-Control-Allow-Methods") = Some (js "POST, OPTIONS")
  /\ header_value (headers (buildCorsResponse st resolved))
       (js "Access-Control-Allow-Headers") = Some (js "Content-Type")
  /\ header_value (headers (buildCorsResponse st resolved)) (js "Allow")
     = None.
Proof.
  unfold buildCorsResponse, buildCorsHeaders. cbv [headers absent].
  destruct resolved as [o|]; [destruct (nonempty o)|];
    repeat split; vm_compute; reflexivity.
Qed.

(** X1.  An [OPTIONS] request is answered with 204 and no body, whatever
    its path and whatever its body, without reading the payload and without
    any outbound call; the answer has no [Content-Type] and carries the CORS
    headers. *)
Theorem preflight_is_answered_204
  (nts : spec_float -> jsstring) (request : Request) (env : Env)
  (net : Network) :
  method request = js "OPTIONS" ->
  exists response,
    worker.fetch nts request env net = (Ok response, [])
    /\ status response = 204%N
    /\ body response = None
    /\ headers response = buildCorsHeaders (allowed_origin request env)
    /\ header_value (headers response) (js "Content-Type") = None
    /\ header_value (headers response) (js "Access-Control-Allow-Methods")
       = Some (js "POST, OPTIONS")
    /\ header_value (headers response) (js "Access-Control-Allow-Headers")
       = Some (js "Content-Type").
Proof.
  intro Hm. eexists. split; [now apply fetch_options|].
  destruct (cors_response_fixed_headers 204 (allowed_origin request env))
    as (Hct & Hacam & Hacah & _).
  repeat split; assumption || reflexivity.
Qed.

Lemma preflight_is_answered_204_witness :
  exists response,
    worker.fetch digits_unknown preflight_request test_env friendly_network
    = (Ok response, [])
    /\ status response = 204%N
    /\ body response = None.
Proof.
  destruct (@preflight_is_answered_204 digits_unknown preflight_request
              test_env friendly_network eq_refl)
    as (response & Hrun & Hstatus & Hbody & _).
  exists response. repeat split; assumption.
Defined.

(** X2.  A request to the contact path whose method is neither [OPTIONS]
    nor [POST] is answered with 405, the error [Method not allowed] and the
    header [Allow: POST, OPTIONS], without any outbound call. *)
Theorem other_method_is_not_allowed
  (nts : spec_float -> jsstring) (request : Request) (env : Env)
  (net : Network) :
  pathname request = js "/api/contact" ->
  method request <> js "OPTIONS" ->
  method request <> js "POST" ->
  exists response,
    worker.fetch nts request env net = (Ok response, [])
    /\ status response = 405%N
    /\ body response = Some (failure_text (js "Method not allowed"))
    /\ header_value (headers response) (js "Allow")
       = Some (js "POST, OPTIONS").
Proof.
  intros Hp Ho Hm. eexists. split; [now apply fetch_method_not_allowed|].
  split; [reflexivity|]. split; [reflexivity|].
  unfold respond.
  now destruct (json_response_fixed_headers nts 405
                  (failure (js "Method not allowed"))
                  (resolveAllowedOrigin (headers_get request (js "Origin"))
                     (ALLOWED_ORIGINS env))
                  (or_intror eq_refl)) as (_ & _ & _ & H).
Qed.

Lemma other_method_is_not_allowed_witness :
  exists response,
    worker.fetch digits_unknown put_on_contact test_env friendly_network
    = (Ok response, [])
    /\ status response = 405%N
    /\ header_value (headers response) (js "Allow")
       = Some (js "POST, OPTIONS").
Proof.
  assert (Ho : method put_on_contact <> js "OPTIONS")
    by (apply eqb_neq; reflexivity).
  assert (Hm : method put_on_contact <> js "POST")
    by (apply eqb_neq; reflexivity).
  destruct (@other_method_is_not_allowed digits_unknown put_on_contact
              test_env friendly_network eq_refl Ho Hm)
    as (response & Hrun & Hstatus & _ & Hallow).
  exists response. repeat split; assumption.
Defined.

(** ** Payloads *)

(** What the sanitizer returns, field by field, whenever it returns. *)
Lemma sanitizePayload_fields raw p :
  sanitizePayload raw = Ok p ->
  nullish raw = false
  /\ name p = trim (text_of (property raw (js "name")))
  /\ email p = trim (text_of (property raw (js "email")))
  /\ phone p = trim (text_of (property raw (js "phone")))
  /\ subject p = property raw (js "subject") ?? JString (js "お問い合わせ")
  /\ budget p = property raw (js "budget") ?? JString (js "")
  /\ deadline p = trim (text_of (property raw (js "deadline")))
  /\ message p = trim (text_of (property raw (js "message")))
  /\ turnstileToken p
     = property raw (js "turnstileToken") ?? JString (js "").
Proof.
  intro Hrun.
  assert (Hraw : nullish raw = false).
  { destruct raw; try reflexivity; vm_compute in Hrun; discriminate. }
  split; [exact Hraw|]. revert Hrun. unfold sanitizePayload.
  rewrite !get_property by exact Hraw. cbv beta iota delta [bindR].
  destruct (call_trim_cases (property raw (js "name"))) as [-> | ->];
    [|discriminate].
  destruct (call_trim_cases (property raw (js "email"))) as [-> | ->];
    [|discriminate].
  destruct (call_trim_cases (property raw (js "phone"))) as [-> | ->];
    [|discriminate].
  destruct (call_trim_cases (property raw (js "deadline"))) as [-> | ->];
    [|discriminate].
  destruct (call_trim_cases (property raw (js "message"))) as [-> | ->];
    [|discriminate].
  intros [= <-]. repeat split; reflexivity.
Qed.

Lemma trimStart_blank s : blank s -> trimStart s = [].
Proof.
  induction 1 as [|c s Hc _ IH]; [reflexivity|]. simpl. now rewrite Hc.
Qed.

Lemma trim_blank s : blank s -> trim s = [].
Proof. intro H. unfold trim. now rewrite (@trimStart_blank _ H). Qed.

(** [trim] takes away white space at the two ends and nothing else. *)
Lemma trim_stripped s : stripped_of s (trim s).
Proof.
  unfold trim. destruct (trimStart_split s) as (before & Hs & Hb).
  destruct (trimEnd_split (trimStart s)) as (after & He & Ha).
  exists before, after. split; [|split; assumption].
  rewrite <- He. exact Hs.
Qed.

(** X3.  Whenever the sanitizer returns, each of [name], [email], [phone],
    [deadline] and [message] is the string the client sent (the empty string
    when the property is absent or [null]) without a run of white space at
    each end: nothing else is removed or changed. *)
Theorem sanitizer_strips_only_surrounding_space
  (raw : JsValue) (p : ContactPayload) :
  sanitizePayload raw = Ok p ->
  stripped_of (text_of (property raw (js "name"))) (name p)
  /\ stripped_of (text_of (property raw (js "email"))) (email p)
  /\ stripped_of (text_of (property raw (js "phone"))) (phone p)
  /\ stripped_of (text_of (property raw (js "deadline"))) (deadline p)
  /\ stripped_of (text_of (property raw (js "message"))) (message p).
Proof.
  intro Hrun.
  destruct (@sanitizePayload_fields _ _ Hrun)
    as (_ & -> & -> & -> & _ & _ & -> & -> & _).
  repeat split; apply trim_stripped.
Qed.

Lemma sanitizer_strips_only_surrounding_space_witness :
  stripped_of (js "  Taro ") (js "Taro")
  /\ stripped_of (js " hello world ") (js "hello world").
Proof.
  destruct (@sanitizer_strips_only_surrounding_space sample_payload
              {| name := js "Taro"; email := js "user@example.com";
                 phone := js ""; subject := JString (js "お問い合わせ");
                 budget := JString (js ""); deadline := js "";
                 message := js "hello world";
                 turnstileToken := JString (js " tok ") |} eq_refl)
    as (Hn & _ & _ & _ & Hm).
  split; assumption.
Defined.

(** X4.  The subject rule can fail only on a subject the client sent
    explicitly and that is falsy (the empty string, [false], [0]): an absent
    or [null] subject is replaced by the default label, which passes. *)
Theorem subject_rule_fails_only_on_explicit_falsy_subject
  (raw : JsValue) (p : ContactPayload) :
  sanitizePayload raw = Ok p ->
  validatePayload p = Some msg_subject ->
  nullish (property raw (js "subject")) = false
  /\ truthy (property raw (js "subject")) = false.
Proof.
  intros Hrun Hval.
  destruct (@sanitizePayload_fields _ _ Hrun) as (_ & _ & _ & _ & Hs & _).
  assert (Hfalsy : truthy (subject p) = false).
  { revert Hval. unfold validatePayload.
    destruct (negb (nonempty (name p)) || (List.length (name p) <? 2));
      [intro H; vm_compute in H; congruence|].
    destruct (negb (nonempty (email p))
              || negb (Regex.test emailRegex (email p)));
      [intro H; vm_compute in H; congruence|].
    destruct (truthy (subject p)); [|reflexivity].
    change (negb true) with false. cbv iota.
    destruct (negb (nonempty (message p)) || (List.length (message p) <? 10));
      [intro H; vm_compute in H; congruence|].
    destruct (negb (truthy (turnstileToken p)));
      [intro H; vm_compute in H; congruence | discriminate]. }
  rewrite Hs in Hfalsy. unfold coalesce in Hfalsy.
  destruct (nullish (property raw (js "subject")));
    [vm_compute in Hfalsy; discriminate | auto].
Qed.

Lemma subject_rule_fails_only_on_explicit_falsy_subject_witness :
  nullish (JString (js "")) = false /\ truthy (JString (js "")) = false.
Proof.
  exact (@subject_rule_fails_only_on_explicit_falsy_subject
           (JObject [(js "name", JString (js "Taro"));
                     (js "email", JString (js "user@example.com"));
                     (js "subject", JString (js ""))])
           {| name := js "Taro"; email := js "user@example.com";
              phone := js ""; subject := JString (js "");
              budget := JString (js ""); deadline := js "";
              message := js ""; turnstileToken := JString (js "") |}
           eq_refl eq_refl).
Defined.

(** X5.  A name that is absent, [null], empty or made of white space only
    is rejected with the name message, whatever the other fields hold. *)
Theorem blank_name_is_rejected (raw : JsValue) (p : ContactPayload) :
  sanitizePayload raw = Ok p ->
  blank (text_of (property raw (js "name"))) ->
  validatePayload p = Some msg_name.
Proof.
  intros Hrun Hblank.
  destruct (@sanitizePayload_fields _ _ Hrun) as (_ & Hn & _).
  unfold validatePayload. rewrite Hn, (@trim_blank _ Hblank). reflexivity.
Qed.

Lemma blank_name_is_rejected_witness :
  validatePayload
    {| name := js ""; email := js "user@example.com"; phone := js "";
       subject := JString (js "お問い合わせ"); budget := JString (js "");
       deadline := js ""; message := js "0123456789";
       turnstileToken := JString (js "t") |} = Some msg_name.
Proof.
  apply (@blank_name_is_rejected
           (JObject [(js "name", JString (js " 　 "));
                     (js "email", JString (js "user@example.com"));
                     (js "message", JString (js "0123456789"));
                     (js "turnstileToken", JString (js "t"))])).
  - reflexivity.
  - vm_compute. repeat constructor.
Defined.

Lemma validation_message_text nts p m :
  validatePayload p = Some m ->
  JSON_stringify nts (failure m) = Some (failure_text m).
Proof.
  unfold validatePayload.
  repeat match goal with
         | |- context [if ?b then _ else _] => destruct b
         end; intros [= <-]; vm_compute; reflexivity.
Qed.

(** X6.  A [POST] to the contact path whose body is not JSON, or is the
    JSON value [null], is answered with 400 and the error
    [Invalid JSON payload], without any outbound call. *)
Theorem unreadable_body_is_invalid_payload
  (nts : spec_float -> jsstring) (request : Request) (env : Env)
  (net : Network) :
  method request = js "POST" ->
  pathname request = js "/api/contact" ->
  json request = None \/ json request = Some JNull ->
  exists response,
    worker.fetch nts request env net = (Ok response, [])
    /\ status response = 400%N
    /\ body response = Some (failure_text (js "Invalid JSON payload")).
Proof.
  intros Hm Hp Hbody. eexists. split.
  - apply fetch_invalid_payload; [assumption | assumption |].
    destruct Hbody as [H|H]; [now left | right].
    exists JNull, TypeError. split; [assumption | reflexivity].
  - split; reflexivity.
Qed.

Lemma unreadable_body_is_invalid_payload_witness :
  exists response,
    worker.fetch digits_unknown post_without_json test_env friendly_network
    = (Ok response, [])
    /\ status response = 400%N
    /\ body response = Some (failure_text (js "Invalid JSON payload")).
Proof.
  exact (@unreadable_body_is_invalid_payload digits_unknown post_without_json
           test_env friendly_network eq_refl eq_refl (or_introl eq_refl)).
Defined.

(** X7.  A submission that breaks a rule is answered with 422 and the
    message of that rule as the error, and neither the verification service
    nor the mail service is contacted. *)
Theorem invalid_submission_is_unprocessable
  (nts : spec_float -> jsstring) (request : Request) (env : Env)
  (net : Network) (raw : JsValue) (p : ContactPayload) (m : jsstring) :
  method request = js "POST" ->
  pathname request = js "/api/contact" ->
  json request = Some raw ->
  sanitizePayload raw = Ok p ->
  validatePayload p = Some m ->
  exists response,
    worker.fetch nts request env net = (Ok response, [])
    /\ status response = 422%N
    /\ body response = Some (failure_text m).
Proof.
  intros Hm Hp Hj Hs Hv. eexists. split.
  - eapply fetch_validation_error; eassumption.
  - split; [reflexivity|]. unfold respond, buildJsonResponse. cbv [body].
    eapply validation_message_text. eassumption.
Qed.

Lemma invalid_submission_is_unprocessable_witness :
  exists response,
    worker.fetch digits_unknown post_with_array test_env friendly_network
    = (Ok response, [])
    /\ status response = 422%N
    /\ body response = Some (failure_text msg_name).
Proof.
  exact (@invalid_submission_is_unprocessable digits_unknown post_with_array
           test_env friendly_network
           (JArray [JString (js "テストユーザー")])
           {| name := js ""; email := js ""; phone := js "";
              subject := JString (js "お問い合わせ");
              budget := JString (js ""); deadline := js "";
              message := js ""; turnstileToken := JString (js "") |}
           msg_name eq_refl eq_refl eq_refl eq_refl eq_refl).
Defined.

(** X8.  A JSON body that is a boolean, a number, a string or an array has
    none of the properties the sanitizer reads: every field takes its
    default, and the answer is 422 with the name message. *)
Theorem non_object_body_fails_the_name_rule
  (nts : spec_float -> jsstring) (request : Request) (env : Env)
  (net : Network) (raw : JsValue) :
  method request = js "POST" ->
  pathname request = js "/api/contact" ->
  json request = Some raw ->
  is_scalar_or_array raw = true ->
  sanitizePayload raw
  = Ok {| name := js ""; email := js ""; phone := js "";
          subject := JString (js "お問い合わせ"); budget := JString (js "");
          deadline := js ""; message := js "";
          turnstileToken := JString (js "") |}
  /\ exists response,
       worker.fetch nts request env net = (Ok response, [])
       /\ status response = 422%N
       /\ body response = Some (failure_text msg_name).
Proof.
  intros Hm Hp Hj Hraw.
  assert (Hs : sanitizePayload raw
               = Ok {| name := js ""; email := js ""; phone := js "";
                       subject := JString (js "お問い合わせ");
                       budget := JString (js ""); deadline := js "";
                       message := js "";
                       turnstileToken := JString (js "") |})
    by (destruct raw; try discriminate; reflexivity).
  split; [exact Hs|].
  eexists. split.
  - eapply fetch_validation_error; try eassumption. reflexivity.
  - split; reflexivity.
Qed.

Lemma non_object_body_fails_the_name_rule_witness :
  exists response,
    worker.fetch digits_unknown post_with_array test_env friendly_network
    = (Ok response, [])
    /\ status response = 422%N
    /\ body response = Some (failure_text msg_name).
Proof.
  exact (proj2 (@non_object_body_fails_the_name_rule digits_unknown
                  post_with_array test_env friendly_network
                  (JArray [JString (js "テストユーザー")])
                  eq_refl eq_refl eq_refl eq_refl)).
Defined.

(** ** Outbound calls *)

Lemma targets_app t1 t2 : targets (t1 ++ t2) = targets t1 ++ targets t2.
Proof. unfold targets. now rewrite fetched_app, map_app. Qed.

Lemma verifier_targets nts token secret ip net outcome t :
  verifyTurnstile nts token secret ip net = (outcome, t) ->
  targets t = [] \/ targets t = [turnstile_url].
Proof.
  intro Hrun. unfold targets.
  destruct (fetched t) as [|rq l] eqn:E; [now left|right].
  assert (Hin : In rq (fetched t)) by (rewrite E; now left).
  destruct (@verifyTurnstile_calls _ _ _ _ _ _ _ rq Hrun Hin)
    as (text & _ & Hrq & Hone).
  rewrite E in Hone. injection Hone as ->. rewrite Hrq. reflexivity.
Qed.

Lemma dispatcher_targets nts p env net outcome t :
  sendResendEmail nts p env net = (outcome, t) ->
  targets t = [] \/ targets t = [resend_url].
Proof.
  intro Hrun. unfold targets.
  destruct (fetched t) as [|rq l] eqn:E; [now left|right].
  assert (Hin : In rq (fetched t)) by (rewrite E; now left).
  destruct (@sendResendEmail_calls _ _ _ _ _ _ rq Hrun Hin)
    as (Hurl & Hone & _).
  rewrite E in Hone. injection Hone as ->. cbn [map]. now rewrite Hurl.
Qed.

Lemma dispatcher_call_needs_recipients nts p env net outcome t rq :
  sendResendEmail nts p env net = (outcome, t) ->
  In rq (fetched t) ->
  delivery_disabled env = false /\ recipients env <> [].
Proof.
  intros Hrun Hin.
  destruct (@sendResendEmail_calls _ _ _ _ _ _ _ Hrun Hin)
    as (_ & _ & Hdis & _).
  split; [assumption|]. intro Hnone.
  rewrite (sendResendEmail_no_recipient nts p env net Hdis Hnone) in Hrun.
  injection Hrun as _ <-. destruct Hin.
Qed.

(** A verdict, [true] or [false], is only given after the verification
    endpoint was called. *)
Lemma verdict_needs_a_call nts token secret ip net verdict t :
  verifyTurnstile nts token secret ip net = (Ok verdict, t) ->
  targets t = [turnstile_url].
Proof.
  destruct secret as [|c secret].
  { rewrite verifyTurnstile_unconfigured. discriminate. }
  rewrite verifyTurnstile_cases by discriminate.
  destruct (ToString nts token) as [text|e]; [|discriminate].
  cbv zeta. destruct (net _) as [e|r]; [discriminate|].
  destruct (resp_ok r).
  - destruct (resp_json r) as [b|]; [destruct (get b _)|];
      intros [= _ <-]; reflexivity.
  - intros [= _ <-]. reflexivity.
Qed.

Lemma dispatcher_success nts p env net t :
  sendResendEmail nts p env net = (Ok tt, t) ->
  delivery_disabled env = true
  \/ exists rq r,
       In rq (fetched t) /\ fetch_url rq = resend_url
       /\ net rq = Responded r /\ resp_ok r = true.
Proof.
  intro Hrun.
  destruct (delivery_disabled env) eqn:Hdis; [now left|right].
  destruct (recipients env) as [|to0 tos] eqn:Hto.
  { rewrite (sendResendEmail_no_recipient nts p env net Hdis Hto) in Hrun.
    discriminate. }
  pose proof Hrun as Hrun'.
  rewrite sendResendEmail_cases in Hrun' by (assumption || congruence).
  destruct (ToString nts (subject p)) as [st|e]; [|discriminate].
  destruct (buildTextBody nts p) as [tb|e]; [|discriminate].
  destruct (buildHtmlBody p env) as [hb|e]; [|discriminate].
  cbv zeta in Hrun'.
  destruct (net (resend_request nts p env st tb hb)) as [e|r] eqn:Hnet;
    [discriminate|].
  destruct (resp_ok r) eqn:Hok; [|discriminate].
  injection Hrun' as <-.
  exists (resend_request nts p env st tb hb), r.
  split; [now left|]. split; [reflexivity|]. split; assumption.
Qed.

(** X9.  When the verification secret is not configured, a valid
    submission makes the handler fail with the error
    [TURNSTILE_SECRET is not configured]: no response is built and no
    outbound call is made. *)
Theorem missing_secret_is_fatal
  (nts : spec_float -> jsstring) (request : Request) (env : Env)
  (p : ContactPayload) (net : Network) :
  valid_submission request p ->
  TURNSTILE_SECRET env = [] ->
  worker.fetch nts request env net
  = (Throw (Error (js "TURNSTILE_SECRET is not configured")), []).
Proof.
  intros (Hm & Hp & (raw & Hj & Hs) & Hv) Hsecret.
  rewrite (@fetch_valid_submission nts request env net raw p) by assumption.
  unfold verify_and_send. rewrite Hsecret, verifyTurnstile_unconfigured.
  reflexivity.
Qed.

Lemma missing_secret_is_fatal_witness :
  worker.fetch digits_unknown test_request env_without_secret friendly_network
  = (Throw (Error (js "TURNSTILE_SECRET is not configured")), []).
Proof.
  exact (@missing_secret_is_fatal digits_unknown test_request
           env_without_secret test_submission friendly_network
           test_submission_is_valid eq_refl).
Defined.

(** X10.  With the secret configured and a string token, a verification
    call that fails in transit, or that is answered with a success status
    and a body that is not JSON or is the JSON value [null], makes the
    handler fail with that error after the one call: no 403 is built and the
    mail service is not contacted. *)
Theorem broken_verification_answer_is_fatal
  (nts : spec_float -> jsstring) (request : Request) (env : Env)
  (p : ContactPayload) (net : Network) (token : jsstring) :
  valid_submission request p ->
  TURNSTILE_SECRET env <> [] ->
  turnstileToken p = JString token ->
  (forall e,
     net (verification_call request env token) = Rejected e ->
     worker.fetch nts request env net
     = (Throw e, [Fetched (verification_call request env token)]))
  /\ (forall r,
        net (verification_call request env token) = Responded r ->
        resp_ok r = true ->
        (resp_json r = None ->
         worker.fetch nts request env net
         = (Throw SyntaxError, [Fetched (verification_call request env token)]))
        /\ (resp_json r = Some JNull ->
            worker.fetch nts request env net
            = (Throw TypeError,
               [Fetched (verification_call request env token)]))).
Proof.
  intros (Hm & Hp & (raw & Hj & Hs) & Hv) Hsecret Htoken.
  rewrite (@fetch_valid_submission nts request env net raw p) by assumption.
  unfold verify_and_send, verification_call.
  rewrite verifyTurnstile_cases, Htoken by assumption.
  cbn [ToString]. cbv zeta. split.
  - intros e ->. reflexivity.
  - intros r -> ->. split; intros ->; reflexivity.
Qed.

Lemma broken_verification_answer_is_fatal_witness :
  worker.fetch digits_unknown test_request sample_env
    (stub_network {| resp_status := 200; resp_text := js "<html>";
                     resp_json := None |} resend_accepts)
  = (Throw SyntaxError,
     [Fetched (verification_call test_request sample_env
                 (js "1x0000000000000000000000000000000AA"))]).
Proof.
  assert (Hsecret : TURNSTILE_SECRET sample_env <> []) by discriminate.
  exact (proj1 (proj2 (@broken_verification_answer_is_fatal digits_unknown
                         test_request sample_env test_submission
                         (stub_network {| resp_status := 200;
                                          resp_text := js "<html>";
                                          resp_json := None |} resend_accepts)
                         (js "1x0000000000000000000000000000000AA")
                         test_submission_is_valid Hsecret eq_refl)
                  _ eq_refl eq_refl) eq_refl).
Defined.

(** X11.  A run of the handler makes no outbound call, or one call to the
    verification endpoint, or that call followed by one call to the mail
    endpoint: never more, never in another order, never to another
    address. *)
Theorem outbound_calls_are_ordered
  (nts : spec_float -> jsstring) (request : Request) (env : Env)
  (net : Network) (outcome : Result Response) (t : list Event) :
  worker.fetch nts request env net = (outcome, t) ->
  targets t = []
  \/ targets t = [turnstile_url]
  \/ targets t = [turnstile_url; resend_url].
Proof.
  intro Hrun.
  destruct (fetch_stages nts request env net)
    as [(_ & H) | [(_ & _ & H) | [(_ & _ & _ & H) | [(_ & _ & _ & H)
       | [(raw & p & m & _ & _ & _ & _ & _ & H) | (p & _ & H)]]]]];
    rewrite H in Hrun; try (injection Hrun as _ <-; now left).
  unfold verify_and_send in Hrun.
  destruct (verifyTurnstile _ _ _ _ net) as [[[|]|e] tv] eqn:Hv.
  - pose proof (verdict_needs_a_call _ _ _ _ _ Hv) as Htv.
    destruct (sendResendEmail nts p env net) as [[u|e] ts] eqn:Hs;
      injection Hrun as _ <-; rewrite ?targets_app, Htv;
      destruct (dispatcher_targets _ _ _ _ Hs) as [-> | ->]; cbn; auto.
  - injection Hrun as _ <-. right. left.
    exact (verdict_needs_a_call _ _ _ _ _ Hv).
  - injection Hrun as _ <-.
    destruct (verifier_targets _ _ _ _ _ Hv) as [-> | ->]; auto.
Qed.

Lemma outbound_calls_are_ordered_witness :
  targets (snd (worker.fetch digits_unknown test_request sample_env
                  friendly_network)) = []
  \/ targets (snd (worker.fetch digits_unknown test_request sample_env
                     friendly_network)) = [turnstile_url]
  \/ targets (snd (worker.fetch digits_unknown test_request sample_env
                     friendly_network)) = [turnstile_url; resend_url].
Proof.
  exact (@outbound_calls_are_ordered digits_unknown test_request sample_env
           friendly_network _ _ (surjective_pairing _)).
Defined.

(** X12.  The mail endpoint is called only for a valid submission that the
    verifier has declared human, with delivery enabled and at least one
    recipient: a request that fails routing, parsing, validation or
    verification never reaches the mail service. *)
Theorem mail_is_sent_only_after_verification
  (nts : spec_float -> jsstring) (request : Request) (env : Env)
  (net : Network) (outcome : Result Response) (t : list Event) :
  worker.fetch nts request env net = (outcome, t) ->
  In resend_url (targets t) ->
  exists p,
    valid_submission request p
    /\ human_verified nts request env p net
    /\ delivery_disabled env = false
    /\ recipients env <> [].
Proof.
  intros Hrun Hin.
  destruct (fetch_stages nts request env net)
    as [(_ & H) | [(_ & _ & H) | [(_ & _ & _ & H) | [(_ & _ & _ & H)
       | [(raw & p & m & _ & _ & _ & _ & _ & H) | (p & Hvalid & H)]]]]];
    rewrite H in Hrun; try (injection Hrun as _ <-; destruct Hin).
  exists p. split; [assumption|].
  unfold verify_and_send in Hrun. unfold human_verified.
  assert (Hverifier : forall verdict tv,
             verifyTurnstile nts (turnstileToken p) (TURNSTILE_SECRET env)
               (headers_get request (js "CF-Connecting-IP")) net
             = (verdict, tv) ->
             ~ In resend_url (targets tv)).
  { intros verdict tv Hv Hbad. unfold targets in Hbad.
    apply in_map_iff in Hbad as (rq & Hurl & Hrq).
    exact (@verifier_never_calls_resend _ _ _ _ _ _ _ Hv rq Hrq Hurl). }
  destruct (verifyTurnstile _ _ _ _ net) as [[[|]|e] tv] eqn:Hv;
    try (injection Hrun as _ <-; destruct (Hverifier _ _ eq_refl Hin)).
  split; [eauto|].
  destruct (sendResendEmail nts p env net) as [[u|e] ts] eqn:Hs;
    injection Hrun as _ <-; rewrite ?targets_app in Hin;
    repeat (apply in_app_or in Hin as [Hin|Hin]);
    try (destruct (Hverifier _ _ eq_refl Hin));
    try (destruct Hin; fail);
    unfold targets in Hin; apply in_map_iff in Hin as (rq & _ & Hrq);
    exact (@dispatcher_call_needs_recipients _ _ _ _ _ _ _ Hs Hrq).
Qed.

Lemma mail_is_sent_only_after_verification_witness :
  exists p,
    valid_submission test_request p
    /\ human_verified digits_unknown test_request sample_env p friendly_network
    /\ delivery_disabled sample_env = false
    /\ recipients sample_env <> [].
Proof.
  apply (@mail_is_sent_only_after_verification digits_unknown test_request
           sample_env friendly_network _ _ (surjective_pairing _)).
  vm_compute. right. left. reflexivity.
Defined.

(** X13.  The handler answers 200 only to a valid submission that the
    verifier has declared human and whose mail was either skipped, delivery
    being disabled, or accepted by the mail endpoint with a success
    status. *)
Theorem success_needs_verification_and_delivery
  (nts : spec_float -> jsstring) (request : Request) (env : Env)
  (net : Network) (response : Response) (t : list Event) :
  worker.fetch nts request env net = (Ok response, t) ->
  status response = 200%N ->
  exists p,
    valid_submission request p
    /\ human_verified nts request env p net
    /\ (delivery_disabled env = true
        \/ exists rq r,
             In rq (fetched t) /\ fetch_url rq = resend_url
             /\ net rq = Responded r /\ resp_ok r = true).
Proof.
  intros Hrun Hstatus.
  destruct (fetch_stages nts request env net)
    as [(_ & H) | [(_ & _ & H) | [(_ & _ & _ & H) | [(_ & _ & _ & H)
       | [(raw & p & m & _ & _ & _ & _ & _ & H) | (p & Hvalid & H)]]]]];
    rewrite H in Hrun;
    try (injection Hrun as <- _; cbv [status respond buildJsonResponse
                                        buildCorsResponse] in Hstatus;
         discriminate Hstatus).
  exists p. split; [assumption|].
  unfold verify_and_send in Hrun. unfold human_verified.
  destruct (verifyTurnstile _ _ _ _ net) as [[[|]|e] tv] eqn:Hv.
  - split; [eauto|].
    destruct (sendResendEmail nts p env net) as [[[]|e] ts] eqn:Hs;
      injection Hrun as <- <-.
    + destruct (@dispatcher_success _ _ _ _ _ Hs)
        as [Hdis | (rq & r & Hin & Hurl & Hnet & Hok)]; [now left|right].
      exists rq, r. split; [|auto].
      rewrite fetched_app. apply in_or_app. now right.
    + cbv [status respond buildJsonResponse] in Hstatus. discriminate Hstatus.
  - injection Hrun as <- _.
    cbv [status respond buildJsonResponse] in Hstatus. discriminate Hstatus.
  - discriminate.
Qed.

Lemma success_needs_verification_and_delivery_witness :
  exists p,
    valid_submission test_request p
    /\ human_verified digits_unknown test_request test_env p friendly_network
    /\ (delivery_disabled test_env = true
        \/ exists rq r,
             In rq (fetched (snd (worker.fetch digits_unknown test_request
                                    test_env friendly_network)))
             /\ fetch_url rq = resend_url
             /\ friendly_network rq = Responded r /\ resp_ok r = true).
Proof.
  assert (Hrun : exists response,
             fst (worker.fetch digits_unknown test_request test_env
                    friendly_network) = Ok response
             /\ status response = 200%N).
  { eexists. split; vm_compute; reflexivity. }
  destruct Hrun as (response & Hfst & Hstatus).
  apply (@success_needs_verification_and_delivery digits_unknown test_request
           test_env friendly_network response _); [|exact Hstatus].
  rewrite <- Hfst. apply surjective_pairing.
Defined.

(** ** Values that are not strings *)

Lemma escape_non_string v : is_string v = false -> escape v = Throw TypeError.
Proof. destruct v; try discriminate; reflexivity. Qed.

Lemma row_non_string label v :
  is_string v = false -> row label v = Throw TypeError.
Proof. intro H. unfold row. now rewrite (@escape_non_string v H). Qed.

(** The HTML body cannot be built when [subject], or a truthy [budget],
    is not a string. *)
Lemma buildHtmlBody_needs_strings p env :
  is_string (subject p) = false
  \/ (truthy (budget p) = true /\ is_string (budget p) = false) ->
  buildHtmlBody p env = Throw TypeError.
Proof.
  intro H. unfold buildHtmlBody. rewrite !row_string.
  cbv beta iota delta [bindR escape].
  destruct (is_string (subject p)) eqn:Hs.
  - destruct H as [H | [Htruthy Hb]]; [discriminate|].
    destruct (subject p) as [| | | |s| |] eqn:Esub; try discriminate.
    rewrite row_string. cbv beta iota.
    unfold or_value. rewrite Htruthy.
    now rewrite (@row_non_string (js "ご予算") (budget p) Hb).
  - now rewrite (@row_non_string (js "件名") (subject p) Hs).
Qed.

(** X14.  A valid, human-verified submission whose [subject] is not a
    string (a number, [true], an array, an object), or whose [budget] is
    truthy and not a string, is never mailed when delivery is enabled: the
    dispatcher fails before calling the mail endpoint and the answer is 502
    with the delivery-failure body. *)
Theorem non_string_subject_is_never_mailed
  (nts : spec_float -> jsstring) (request : Request) (env : Env)
  (p : ContactPayload) (net : Network) :
  valid_submission request p ->
  human_verified nts request env p net ->
  delivery_disabled env = false ->
  is_string (subject p) = false
  \/ (truthy (budget p) = true /\ is_string (budget p) = false) ->
  (exists e, sendResendEmail nts p env net = (Throw e, []))
  /\ exists response t,
       worker.fetch nts request env net = (Ok response, t)
       /\ status response = 502%N
       /\ body response = Some (failure_text msg_delivery)
       /\ never_called resend_url t.
Proof.
  intros Hvalid (tv & Hverified) Hdis Hbad.
  assert (Hsend : exists e, sendResendEmail nts p env net = (Throw e, [])).
  { destruct (recipients env) as [|to0 tos] eqn:Hto.
    - eexists. now apply sendResendEmail_no_recipient.
    - rewrite sendResendEmail_cases by (assumption || congruence).
      rewrite (buildHtmlBody_needs_strings p env Hbad).
      destruct (ToString nts (subject p)); [|eauto].
      destruct (buildTextBody nts p); eauto. }
  split; [exact Hsend|]. destruct Hsend as (e & Hsend).
  rewrite (@fetch_after_verification _ _ _ _ _ _ Hvalid Hverified), Hsend.
  eexists. eexists. split; [reflexivity|].
  split; [reflexivity|]. split; [reflexivity|].
  intros rq Hin. rewrite fetched_app in Hin. cbn [fetched flat_map app] in Hin.
  rewrite app_nil_r in Hin.
  exact (@verifier_never_calls_resend _ _ _ _ _ _ _ Hverified rq Hin).
Qed.

Lemma non_string_subject_is_never_mailed_witness :
  exists response t,
    worker.fetch digits_unknown numeric_subject_request sample_env
      friendly_network = (Ok response, t)
    /\ status response = 502%N
    /\ body response = Some (failure_text msg_delivery)
    /\ never_called resend_url t.
Proof.
  assert (Hvalid : valid_submission numeric_subject_request
                     numeric_subject_submission).
  { unfold valid_submission. split; [reflexivity|]. split; [reflexivity|].
    split; [exists numeric_subject_payload; split; vm_compute; reflexivity|].
    vm_compute. reflexivity. }
  assert (Hhuman : human_verified digits_unknown numeric_subject_request
                     sample_env numeric_subject_submission friendly_network).
  { eexists. vm_compute. reflexivity. }
  exact (proj2 (@non_string_subject_is_never_mailed digits_unknown
                  numeric_subject_request sample_env
                  numeric_subject_submission friendly_network
                  Hvalid Hhuman eq_refl (or_introl eq_refl))).
Defined.

(** ** The shape of every answer *)






(** ** The mail request *)

(** X16.  Whatever request the dispatcher sends goes out only once the
    subject line and both bodies are built, and it is a [POST] to the mail
    endpoint with bearer authentication whose JSON body names the configured
    sender, the configured recipients, the submitter's address as
    [reply_to], the subject line [[site] subject from name], and the two
    bodies. *)
Theorem mail_request_is_built_from_the_submission
  (nts : spec_float -> jsstring) (p : ContactPayload) (env : Env)
  (net : Network) (outcome : Result unit) (t : list Event)
  (rq : FetchRequest) :
  sendResendEmail nts p env net = (outcome, t) ->
  In rq (fetched t) ->
  exists subject_text textBody htmlBody,
    ToString nts (subject p) = Ok subject_text
    /\ buildTextBody nts p = Ok textBody
    /\ buildHtmlBody p env = Ok htmlBody
    /\ fetch_url rq = resend_url
    /\ fetch_method rq = js "POST"
    /\ header_value (fetch_headers rq) (js "Authorization")
       = Some (js "Bearer " ++ RESEND_API_KEY env)
    /\ header_value (fetch_headers rq) (js "Content-Type")
       = Some (js "application/json")
    /\ fetch_body rq
       = StringBody
           (JSON_stringify nts
              (JObject
                 [(js "from", JString (FROM_EMAIL env));
                  (js "to", JArray (map JString (recipients env)));
                  (js "reply_to", JString (email p));
                  (js "subject",
                   JString (js "[" ++ site_or env (js "WANYA") ++ js "] " ++
                            subject_text ++ js " from " ++ name p));
                  (js "text", JString textBody);
                  (js "html", JString htmlBody)])).
Proof.
  intros Hrun Hin.
  destruct (@dispatcher_call_needs_recipients _ _ _ _ _ _ _ Hrun Hin)
    as [Hdis Hto].
  rewrite sendResendEmail_cases in Hrun by assumption.
  destruct (ToString nts (subject p)) as [st|e];
    [|injection Hrun as _ <-; destruct Hin].
  destruct (buildTextBody nts p) as [tb|e];
    [|injection Hrun as _ <-; destruct Hin].
  destruct (buildHtmlBody p env) as [hb|e];
    [|injection Hrun as _ <-; destruct Hin].
  cbv zeta in Hrun.
  assert (Hrq : rq = resend_request nts p env st tb hb).
  { destruct (net _) as [e|r]; [|destruct (resp_ok r)];
      injection Hrun as _ <-; destruct Hin as [<-|[]]; reflexivity. }
  exists st, tb, hb. rewrite Hrq.
  repeat split; vm_compute; reflexivity.
Qed.

Lemma mail_request_is_built_from_the_submission_witness :
  exists rq,
    In rq (fetched (snd (sendResendEmail digits_unknown test_submission
                           sample_env friendly_network)))
    /\ fetch_method rq = js "POST"
    /\ header_value (fetch_headers rq) (js "Authorization")
       = Some (js "Bearer test-api-key").
Proof.
  assert (Hin : exists rq,
             In rq (fetched (snd (sendResendEmail digits_unknown
                                    test_submission sample_env
                                    friendly_network)))).
  { vm_compute. eexists. left. reflexivity. }
  destruct Hin as (rq & Hin). exists rq. split; [exact Hin|].
  destruct (@mail_request_is_built_from_the_submission digits_unknown
              test_submission sample_env friendly_network _ _ rq
              (surjective_pairing _) Hin)
    as (st & tb & hb & _ & _ & _ & _ & Hmethod & Hauth & _).
  split; [exact Hmethod | exact Hauth].
Defined.

(** ** Escaping *)

Lemma escape_string_cons c s :
  escape_string (c :: s) = escape_unit c ++ escape_string s.
Proof. now rewrite !escape_string_units. Qed.

Lemma escape_unit_cases c :
  (c = 38%N /\ escape_unit c = [38; 97; 109; 112; 59]%N)
  \/ (c = 60%N /\ escape_unit c = [38; 108; 116; 59]%N)
  \/ (c = 62%N /\ escape_unit c = [38; 103; 116; 59]%N)
  \/ (c <> 38%N /\ c <> 60%N /\ c <> 62%N /\ escape_unit c = [c]).
Proof.
  unfold escape_unit.
  destruct (N.eqb_spec c 38) as [->|H38]; [left; split; reflexivity|].
  destruct (N.eqb_spec c 60) as [->|H60]; [right; left; split; reflexivity|].
  destruct (N.eqb_spec c 62) as [->|H62];
    [right; right; left; split; reflexivity|].
  right. right. right. auto.
Qed.

Lemma escape_injective a : forall b, escape_string a = escape_string b -> a = b.
Proof.
  induction a as [|c a IH]; intros [|d b].
  - reflexivity.
  - rewrite escape_string_cons. intro H.
    destruct (escape_unit_cases d) as [[_ E]|[[_ E]|[[_ E]|(_ & _ & _ & E)]]];
      rewrite E in H; discriminate H.
  - rewrite escape_string_cons. intro H.
    destruct (escape_unit_cases c) as [[_ E]|[[_ E]|[[_ E]|(_ & _ & _ & E)]]];
      rewrite E in H; discriminate H.
  - rewrite !escape_string_cons. intro H.
    destruct (escape_unit_cases c)
      as [[Hc Ec]|[[Hc Ec]|[[Hc Ec]|(Hc1 & Hc2 & Hc3 & Ec)]]];
      destruct (escape_unit_cases d)
        as [[Hd Ed]|[[Hd Ed]|[[Hd Ed]|(Hd1 & Hd2 & Hd3 & Ed)]]];
      rewrite Ec, Ed in H; cbn [app] in H;
      try (injection H as H; try congruence);
      try (subst; f_equal; apply IH; congruence).
Qed.

(** X17.  Escaped text holds no [<] and no [>], so a field cannot open or
    close a tag in the HTML body; and escaping loses nothing: two different
    texts never have the same escaped form. *)
Theorem escaped_text_is_inert_and_faithful :
  (forall s c, In c (escape_string s) -> c <> 60%N /\ c <> 62%N)
  /\ (forall a b, escape_string a = escape_string b -> a = b).
Proof.
  split; [|exact escape_injective].
  intros s c Hin. rewrite escape_string_units in Hin.
  apply in_flat_map in Hin as (x & _ & Hx).
  destruct (escape_unit_cases x)
    as [[_ E]|[[_ E]|[[_ E]|(_ & H60 & H62 & E)]]];
    rewrite E in Hx; cbv [In] in Hx;
    repeat (destruct Hx as [<-|Hx]; [split; (discriminate || assumption)|]);
    destruct Hx.
Qed.

(** ** Comma-separated lists *)

Lemma split_segments_have_no_separator sep s :
  Forall (fun seg => ~ In sep seg) (split sep s).
Proof.
  induction s as [|c s IH]; cbn [split].
  - constructor; [intros []|constructor].
  - destruct (N.eqb_spec c sep) as [->|Hne].
    + constructor; [intros []|exact IH].
    + destruct (split sep s) as [|h tl]; [repeat constructor; now intros [|[]]|].
      inversion IH as [|? ? Hh Htl]; subst.
      constructor; [|exact Htl]. intros [H|H]; [congruence | now apply Hh].
Qed.

Lemma trim_keeps_only_given_units s c : In c (trim s) -> In c s.
Proof.
  intro H. destruct (trim_stripped s) as (before & after & Hs & _).
  rewrite Hs. apply in_or_app. right. apply in_or_app. now left.
Qed.

Lemma listed_entries_are_clean configured entry :
  In entry (filter nonempty (map trim (split 44%N configured))) ->
  entry <> [] /\ trimmed entry /\ ~ In 44%N entry.
Proof.
  intro H. apply filter_In in H as [H Hne].
  apply in_map_iff in H as (seg & <- & Hseg).
  split; [now apply nonempty_true|]. split; [apply trim_trimmed|].
  intro Hcomma. apply trim_keeps_only_given_units in Hcomma.
  pose proof (split_segments_have_no_separator 44%N configured) as Hall.
  rewrite Forall_forall in Hall. exact (Hall seg Hseg Hcomma).
Qed.

(** X18.  Every recipient of the mail, and every entry of the CORS
    allow-list, is a non-empty string without white space at either end and
    without a comma: blank segments of the configured string, as in
    [a@x.io, ,b@x.io,], are dropped. *)
Theorem configured_lists_have_clean_entries :
  (forall env entry,
     In entry (recipients env) ->
     entry <> [] /\ trimmed entry /\ ~ In 44%N entry)
  /\ (forall configured entry,
        In entry (allow_list configured) ->
        entry <> [] /\ trimmed entry /\ ~ In 44%N entry).
Proof.
  split.
  - intros env entry. unfold recipients. apply listed_entries_are_clean.
  - intros configured entry. unfold allow_list.
    apply listed_entries_are_clean.
Qed.

Example recipients_drop_blank_segments :
  recipients {| RESEND_API_KEY := js "k"; FROM_EMAIL := js "f@x.io";
                TO_EMAIL := js "a@x.io, ,b@x.io,";
                TURNSTILE_SECRET := js "s"; ALLOWED_ORIGINS := None;
                SITE_NAME := None; RESEND_DISABLED := None |}
  = [js "a@x.io"; js "b@x.io"].
Proof. vm_compute. reflexivity. Qed.

(** ** The validator, rule by rule *)

Lemma address_part_has_no_at s : address_part s -> count_occ N.eq_dec s 64%N = 0.
Proof.
  intros [_ Hall]. apply count_occ_not_In. intro Hin.
  rewrite Forall_forall in Hall. specialize (Hall _ Hin).
  vm_compute in Hall. discriminate.
Qed.

Lemma address_part_has_no_space s c :
  address_part s -> In c s -> is_whitespace c = false.
Proof.
  intros [_ Hall] Hin. rewrite Forall_forall in Hall. specialize (Hall _ Hin).
  unfold not_space_or_at in Hall. apply negb_true_iff in Hall.
  now apply orb_false_iff in Hall.
Qed.

(** X19.  The address pattern accepts exactly the strings
    [local@domain.tld] whose three parts are non-empty and free of white
    space and of [@]; an accepted address therefore holds exactly one [@]
    and no white space at all. *)
Theorem email_pattern_accepts_exactly_addresses (s : jsstring) :
  (Regex.test emailRegex s = true <-> address_shape s)
  /\ (Regex.test emailRegex s = true ->
      count_occ N.eq_dec s 64%N = 1
      /\ forall c, In c s -> is_whitespace c = false).
Proof.
  split; [apply emailRegex_test_shape|].
  intro H. apply emailRegex_test_shape in H
    as (a & b & c & -> & Ha & Hb & Hc).
  split.
  - rewrite count_occ_app, (@address_part_has_no_at a Ha).
    cbn [count_occ]. destruct (N.eq_dec 64 64) as [_|Hne]; [|congruence].
    rewrite count_occ_app, (@address_part_has_no_at b Hb).
    cbn [count_occ]. destruct (N.eq_dec 46 64) as [Heq|_]; [discriminate|].
    now rewrite (@address_part_has_no_at c Hc).
  - intros x Hin. apply in_app_or in Hin as [Hin|[<-|Hin]];
      [exact (@address_part_has_no_space a x Ha Hin) | reflexivity |].
    apply in_app_or in Hin as [Hin|[<-|Hin]];
      [exact (@address_part_has_no_space b x Hb Hin) | reflexivity
      | exact (@address_part_has_no_space c x Hc Hin)].
Qed.

(** X20.  A submission passes the validator exactly when its name has at
    least two code units, its email has the address shape, its subject is
    truthy, its message has at least ten code units and its token is truthy;
    [phone], [budget] and [deadline] play no part. *)
Theorem submission_is_accepted_exactly_when (p : ContactPayload) :
  validatePayload p = None
  <-> 2 <= List.length (name p)
      /\ address_shape (email p)
      /\ truthy (subject p) = true
      /\ 10 <= List.length (message p)
      /\ truthy (turnstileToken p) = true.
Proof.
  rewrite <- emailRegex_test_shape. unfold validatePayload. split.
  - destruct (negb (nonempty (name p)) || (List.length (name p) <? 2))
      eqn:En; [discriminate|].
    destruct (negb (nonempty (email p))
              || negb (Regex.test emailRegex (email p))) eqn:Ee;
      [discriminate|].
    destruct (negb (truthy (subject p))) eqn:Es; [discriminate|].
    destruct (negb (nonempty (message p))
              || (List.length (message p) <? 10)) eqn:Em; [discriminate|].
    destruct (negb (truthy (turnstileToken p))) eqn:Et; [discriminate|].
    intros _.
    apply orb_false_iff in En as [_ En], Ee as [_ Ee], Em as [_ Em].
    apply Nat.ltb_ge in En, Em.
    apply negb_false_iff in Ee, Es, Et. auto.
  - intros (Hn & He & Hs & Hm & Ht).
    assert (Hn' : nonempty (name p) = true)
      by (destruct (name p); [inversion Hn | reflexivity]).
    assert (Hm' : nonempty (message p) = true)
      by (destruct (message p); [inversion Hm | reflexivity]).
    assert (He' : nonempty (email p) = true)
      by (destruct (email p); [vm_compute in He; discriminate | reflexivity]).
    apply Nat.ltb_ge in Hn, Hm.
    rewrite Hn', Hn, He', He, Hs, Hm', Hm, Ht. reflexivity.
Qed.

(** ** What the sanitizer reads *)

(** X21.  The sanitizer reads eight properties and nothing else: two
    payloads that agree on them (and are both [null] or both not) give the
    same result, so unknown properties of a payload are ignored. *)
Theorem sanitizer_ignores_other_properties (a b : JsValue) :
  agree_on_read_properties a b ->
  sanitizePayload a = sanitizePayload b.
Proof.
  intros [Hnull Hprops].
  destruct (nullish a) eqn:Ha.
  - destruct a; try discriminate; destruct b; try discriminate; reflexivity.
  - symmetry in Hnull. unfold sanitizePayload.
    rewrite !(@get_property a) by exact Ha.
    rewrite !(@get_property b) by exact Hnull.
    rewrite !Hprops by (cbv [sanitized_keys In]; auto 10).
    reflexivity.
Qed.

Lemma sanitizer_ignores_other_properties_witness :
  sanitizePayload test_payload_with_more = sanitizePayload test_payload.
Proof.
  apply sanitizer_ignores_other_properties.
  split; [reflexivity|]. intros k Hk. cbv [sanitized_keys In] in Hk.
  repeat (destruct Hk as [<-|Hk]; [vm_compute; reflexivity|]).
  destruct Hk.
Defined.
